(** * Live message distribution of the chat backend

    A shallow embedding of the Go packages [models] (Connection, Hub),
    [websocket] (WebSocketHandler and its pumps), [grpc] (ChatServer) and
    [api] (Handler.SendMessage), and the properties of the registry, the
    room broadcast, the Redis bridge and the RPC gateway.

    Conventions.
    - A [*Connection] is a record of its immutable fields together with the
      address of its [Send] channel; the channel objects live in a heap
      ([heap]) so that closing or filling a channel is seen through every
      alias of the connection.
    - A Go panic (send on a closed channel, close of a closed or nil channel)
      is the result [None].
    - [uuid.New()], [time.Now()] and the outcome of the database and Redis
      calls are inputs of each handler (record [env]).
    - [encoding/json] is a collaborator: it is the class [JSON]. *)

From Stdlib Require Import ZArith.
From stdpp Require Import gmap strings list fin_maps.

Open Scope string_scope.

(** ** Wire records *)

(** [websocket.WSMessage]. [Type] is a keyword, hence [Type_]. *)
Module WSMessage.
Record t := mk {
  Type_ : string;
  UserID : string;
  Username : string;
  RoomID : string;
  Content : string;
  MessageID : string;
  Timestamp : Z;
  Metadata : gmap string string
}.
End WSMessage.

(** The protobuf message [pb.Message] of the RPC gateway. *)
Module pb.
Record Message := mkMessage {
  Id : string;
  UserId : string;
  Username : string;
  RoomId : string;
  Content : string;
  MessageType : string;
  Timestamp : Z;
  Metadata : gmap string string
}.

Record MessageResponse := mkResponse {
  Success : bool;
  MessageId : string;
  Error : string
}.
End pb.

(** The map literal [messageData] that both [SendMessage] handlers publish:
    its keys are "id", "user_id", "username", "room_id", "content",
    "message_type", "timestamp" and "metadata". *)
Module messageData.
Record t := mk {
  id : string;
  user_id : string;
  username : string;
  room_id : string;
  content : string;
  message_type : string;
  timestamp : Z;
  metadata : gmap string string
}.
End messageData.

(** [api.MessageRequest], as [Handler.SendMessage] reads it. *)
Module MessageRequest.
Record t := mk {
  RoomID : string;
  Content : string;
  MessageType : string;
  Metadata : gmap string string
}.
End MessageRequest.

(** [encoding/json], as the program uses it. [bytes] is the type of encoded
    data ([[]byte], a Redis payload); [Payload_string] is the conversion of
    a received payload to the Go string stored in a [pb.Message]. *)
Class JSON := {
  bytes : Type;
  json_Marshal_WSMessage : WSMessage.t -> option bytes;
  json_Marshal_messageData : messageData.t -> option bytes;
  json_Unmarshal_WSMessage : bytes -> option WSMessage.t;
  Payload_string : bytes -> string
}.

(** A symbolic codec: encoded data is the document it encodes. Decoding a
    [messageData] document into a [WSMessage] keeps the keys both have
    ("user_id", "username", "room_id", "content", "timestamp", "metadata")
    and leaves [Type] and [MessageID] at their zero value, since the
    document spells them "message_type" and "id". *)
Module Symbolic.
Inductive doc :=
| DocWS (m : WSMessage.t)
| DocData (d : messageData.t)
| DocMalformed (raw : string).

Definition unmarshal (b : doc) : option WSMessage.t :=
  match b with
  | DocWS m => Some m
  | DocData d =>
      Some (WSMessage.mk "" (messageData.user_id d) (messageData.username d)
              (messageData.room_id d) (messageData.content d) ""
              (messageData.timestamp d) (messageData.metadata d))
  | DocMalformed _ => None
  end.

Definition text (b : doc) : string :=
  match b with
  | DocWS m => WSMessage.Content m
  | DocData d => messageData.content d
  | DocMalformed raw => raw
  end.

Definition codec : JSON :=
  {| bytes := doc;
     json_Marshal_WSMessage := fun m => Some (DocWS m);
     json_Marshal_messageData := fun d => Some (DocData d);
     json_Unmarshal_WSMessage := unmarshal;
     Payload_string := text |}.
End Symbolic.

(** ** Package models *)

(** [models.Connection]: the fields set by [NewConnection], with [Send] the
    address of the connection's channel. *)
Module Connection.
Record t := mk {
  ID : string;
  UserID : string;
  Username : string;
  RoomID : string;
  Send : nat
}.

#[global] Instance eq_dec : EqDecision t.
Proof. solve_decision. Defined.
End Connection.

(** Statements the handlers execute on the database. *)
Inductive db_stmt :=
| INSERT_INTO_messages (id user_id username room_id content message_type : string)
    (timestamp : Z) (metadata : gmap string string)
| INSERT_INTO_room_members (room_id user_id : string)
| UPDATE_users_online (user_id : string)
| DELETE_FROM_room_members (room_id user_id : string).

(** What a handler reads from its environment during one call. An error is
    the text [%v] prints. [db_err2] is the outcome of the second statement
    of [handleJoinRoom]. *)
Record env := mkEnv {
  uuid_New : string;
  time_Now : Z;
  db_err : option string;
  db_err2 : option string;
  redis_err : option string
}.

Section ChatApp.
Context `{JSON}.

(** *** Channels *)

(** A buffered channel [chan []byte]. *)
Record chan := mkChan {
  cap : nat;
  buf : list bytes;
  closed : bool
}.

(** [make(chan []byte, n)] *)
Definition make_chan (n : nat) : chan := mkChan n [] false.

(** The outcome of [select { case ch <- v: ... default: ... }]. For a
    buffered channel the send case is ready when the buffer has room (a
    receiver that waits finds the buffer empty). *)
Inductive select_send :=
| Sent (ch' : chan)
| Default
| SendPanics.

(** The channel after [v] is queued, and after it is closed. *)
Definition pushed (ch : chan) (v : bytes) : chan :=
  mkChan (cap ch) (buf ch ++ [v]) false.

Definition shut (ch : chan) : chan := mkChan (cap ch) (buf ch) true.

Definition select_send_default (ch : chan) (v : bytes) : select_send :=
  if closed ch then SendPanics
  else if decide (length (buf ch) < cap ch) then Sent (pushed ch v)
       else Default.

(** [close(ch)] *)
Definition close (ch : chan) : option chan :=
  if closed ch then None else Some (shut ch).

(** [v, ok := <-ch] without blocking: the writer pump taking the next
    message, when there is one. *)
Definition receive (ch : chan) : option (bytes * chan) :=
  match buf ch with
  | v :: rest => Some (v, mkChan (cap ch) rest (closed ch))
  | [] => None
  end.

(** *** The process state *)

(** [Connections] is [Hub.Connections]; [heap] holds the channel objects;
    [published] lists the Redis PUBLISH calls that succeeded, [db] the
    statements that succeeded and [log] the lines of [log.Printf], all
    oldest first. *)
Record State := mkState {
  Connections : gmap string Connection.t;
  heap : gmap nat chan;
  published : list (string * bytes);
  db : list db_stmt;
  log : list string
}.

Definition set_Connections (m : gmap string Connection.t) (s : State) : State :=
  mkState m (heap s) (published s) (db s) (log s).

Definition set_heap (hp : gmap nat chan) (s : State) : State :=
  mkState (Connections s) hp (published s) (db s) (log s).

Definition log_Printf (line : string) (s : State) : State :=
  mkState (Connections s) (heap s) (published s) (db s) (log s ++ [line]).

Definition db_Exec (q : db_stmt) (s : State) : State :=
  mkState (Connections s) (heap s) (published s) (db s ++ [q]) (log s).

Definition redis_PUBLISH (channel : string) (data : bytes) (s : State) : State :=
  mkState (Connections s) (heap s) (published s ++ [(channel, data)]) (db s) (log s).

(** The capacity [NewConnection] gives to [Send]. *)
Definition Send_capacity : nat := 256.

(** [NewConnection]: a connection with a new id and a new channel of 256
    slots, allocated at the free address [addr]. *)
Definition NewConnection (id userID username roomID : string) (addr : nat)
    (s : State) : Connection.t * State :=
  (Connection.mk id userID username roomID addr,
   set_heap (<[addr := make_chan Send_capacity]> (heap s)) s).

(** [NewHub]: no connection. *)
Definition NewHub : State := mkState ∅ ∅ [] [] [].

(** The statement shared by [Hub.Run]'s broadcast case and by
    [broadcastToRoom]:
    [select { case conn.Send <- data: default: close(conn.Send);
    delete(Connections, conn.ID) }]. A nil channel is never ready and its
    close panics. *)
Definition send_or_drop (conn : Connection.t) (data : bytes) (s : State)
    : option State :=
  match heap s !! Connection.Send conn with
  | None => None
  | Some ch =>
      match select_send_default ch data with
      | Sent ch' => Some (set_heap (<[Connection.Send conn := ch']> (heap s)) s)
      | Default =>
          match close ch with
          | None => None
          | Some ch' =>
              Some (set_Connections (delete (Connection.ID conn) (Connections s))
                      (set_heap (<[Connection.Send conn := ch']> (heap s)) s))
          end
      | SendPanics => None
      end
  end.

(** [for _, conn := range Connections { body }] over the keys present when
    the loop starts; an entry removed before it is reached is not produced.
    Go leaves the order unspecified: the order of [map_to_list] is used. *)
Fixpoint range (body : Connection.t -> State -> option State)
    (keys : list string) (s : State) : option State :=
  match keys with
  | [] => Some s
  | k :: keys' =>
      match Connections s !! k with
      | Some conn =>
          match body conn s with
          | Some s' => range body keys' s'
          | None => None
          end
      | None => range body keys' s
      end
  end.

Definition range_Connections (body : Connection.t -> State -> option State)
    (s : State) : option State :=
  range body (map_to_list (Connections s)).*1 s.

(** *** Hub.Run *)

(** What the loop of [Hub.Run] receives on its three channels. *)
Inductive hub_event :=
| Register (conn : Connection.t)
| Unregister (conn : Connection.t)
| Broadcast (message : bytes).

(** One iteration of the [for { select { ... } }] of [Hub.Run]. *)
Definition Run_step (ev : hub_event) (s : State) : option State :=
  match ev with
  | Register conn =>
      Some (set_Connections (<[Connection.ID conn := conn]> (Connections s)) s)
  | Unregister conn =>
      match Connections s !! Connection.ID conn with
      | Some _ =>
          match heap s !! Connection.Send conn with
          | Some ch =>
              match close ch with
              | Some ch' =>
                  Some (set_heap (<[Connection.Send conn := ch']> (heap s))
                          (set_Connections
                             (delete (Connection.ID conn) (Connections s)) s))
              | None => None
              end
          | None => None
          end
      | None => Some s
      end
  | Broadcast message =>
      range_Connections (fun conn => send_or_drop conn message) s
  end.


(** ** Package websocket *)

(** [fmt.Sprintf("room:%s", roomID)] *)
Definition room_channel (roomID : string) : string := "room:" ++ roomID.

(** [broadcastToRoom]. The lock [h.mu] is only read-locked and is not the
    discipline of [Hub.Run]; the function reads and deletes from
    [hub.Connections] on the goroutine that calls it. *)
Definition broadcastToRoom (roomID : string) (msg : WSMessage.t) (s : State)
    : option State :=
  match json_Marshal_WSMessage msg with
  | None => Some (log_Printf "Error marshaling message" s)
  | Some data =>
      range_Connections
        (fun conn s' =>
           if decide (Connection.RoomID conn = roomID)
           then send_or_drop conn data s'
           else Some s')
        s
  end.

(** [RedisClient.Publish]: marshal, then PUBLISH; the error, if any, and
    the state. The text of an encoding error is not modelled beyond a
    fixed string. *)
Definition redis_Publish (e : env) (channel : string) (encoded : option bytes)
    (s : State) : option string * State :=
  match encoded with
  | None => (Some "json: unsupported value", s)
  | Some data =>
      match redis_err e with
      | Some err => (Some err, s)
      | None => (None, redis_PUBLISH channel data s)
      end
  end.

(** [publishToRedis] *)
Definition publishToRedis (e : env) (roomID : string) (msg : WSMessage.t)
    (s : State) : State :=
  let channel := room_channel roomID in
  match redis_Publish e channel (json_Marshal_WSMessage msg) s with
  | (Some err, s') => log_Printf ("Error publishing to Redis: " ++ err) s'
  | (None, s') => s'
  end.

(** [handleChatMessage] *)
Definition handleChatMessage (e : env) (conn : Connection.t) (msg : WSMessage.t)
    (s : State) : option State :=
  let messageID := uuid_New e in
  let timestamp := time_Now e in
  match db_err e with
  | Some err => Some (log_Printf ("Error storing message: " ++ err) s)
  | None =>
      let s1 :=
        db_Exec (INSERT_INTO_messages messageID (Connection.UserID conn)
                   (Connection.Username conn) (Connection.RoomID conn)
                   (WSMessage.Content msg) "text" timestamp
                   (WSMessage.Metadata msg)) s in
      let broadcastMsg :=
        WSMessage.mk "message" (Connection.UserID conn)
          (Connection.Username conn) (Connection.RoomID conn)
          (WSMessage.Content msg) messageID timestamp
          (WSMessage.Metadata msg) in
      match broadcastToRoom (Connection.RoomID conn) broadcastMsg s1 with
      | Some s2 => Some (publishToRedis e (Connection.RoomID conn) broadcastMsg s2)
      | None => None
      end
  end.

(** [handleJoinRoom]: the result of the UPDATE is not looked at. *)
Definition handleJoinRoom (e : env) (conn : Connection.t) (msg : WSMessage.t)
    (s : State) : option State :=
  match db_err e with
  | Some err => Some (log_Printf ("Error joining room: " ++ err) s)
  | None =>
      let s1 :=
        db_Exec (INSERT_INTO_room_members (Connection.RoomID conn)
                   (Connection.UserID conn)) s in
      let s2 :=
        match db_err2 e with
        | None => db_Exec (UPDATE_users_online (Connection.UserID conn)) s1
        | Some _ => s1
        end in
      let joinMsg :=
        WSMessage.mk "join" (Connection.UserID conn) (Connection.Username conn)
          (Connection.RoomID conn)
          (Connection.Username conn ++ " joined the room")
          (uuid_New e) (time_Now e) ∅ in
      broadcastToRoom (Connection.RoomID conn) joinMsg s2
  end.

(** [handleLeaveRoom]: the result of the DELETE is not looked at. *)
Definition handleLeaveRoom (e : env) (conn : Connection.t) (msg : WSMessage.t)
    (s : State) : option State :=
  let s1 :=
    match db_err e with
    | None =>
        db_Exec (DELETE_FROM_room_members (Connection.RoomID conn)
                   (Connection.UserID conn)) s
    | Some _ => s
    end in
  let leaveMsg :=
    WSMessage.mk "leave" (Connection.UserID conn) (Connection.Username conn)
      (Connection.RoomID conn)
      (Connection.Username conn ++ " left the room")
      (uuid_New e) (time_Now e) ∅ in
  broadcastToRoom (Connection.RoomID conn) leaveMsg s1.

(** [handleTyping] *)
Definition handleTyping (e : env) (conn : Connection.t) (msg : WSMessage.t)
    (s : State) : option State :=
  let typingMsg :=
    WSMessage.mk "typing" (Connection.UserID conn) (Connection.Username conn)
      (Connection.RoomID conn) (WSMessage.Content msg)
      (uuid_New e) (time_Now e) ∅ in
  broadcastToRoom (Connection.RoomID conn) typingMsg s.

(** [handleMessage]: the [switch msg.Type]. *)
Definition handleMessage (e : env) (conn : Connection.t) (msg : WSMessage.t)
    (s : State) : option State :=
  if decide (WSMessage.Type_ msg = "message") then handleChatMessage e conn msg s
  else if decide (WSMessage.Type_ msg = "join") then handleJoinRoom e conn msg s
  else if decide (WSMessage.Type_ msg = "leave") then handleLeaveRoom e conn msg s
  else if decide (WSMessage.Type_ msg = "typing") then handleTyping e conn msg s
  else Some (log_Printf ("Unknown message type: " ++ WSMessage.Type_ msg) s).

(** What [conn.wsConn.ReadMessage()] returns: an error (a closed socket, an
    expired deadline, a frame above the read limit), flagged when it is an
    unexpected close, or the bytes of a frame. *)
Inductive read_result :=
| ReadError (unexpected : bool) (err : string)
| ReadFrame (message : bytes).

Inductive loop := Continue | Break.

(** One iteration of the [for] of [readPump]. After [Break] the deferred
    function sends the connection on [hub.Unregister]. *)
Definition readPump_iter (e : env) (conn : Connection.t) (r : read_result)
    (s : State) : option (loop * State) :=
  match r with
  | ReadError unexpected err =>
      Some (Break,
            if unexpected then log_Printf ("WebSocket read error: " ++ err) s
            else s)
  | ReadFrame message =>
      match json_Unmarshal_WSMessage message with
      | None => Some (Continue, log_Printf "Error parsing message" s)
      | Some wsMsg =>
          match handleMessage e conn wsMsg s with
          | Some s' => Some (Continue, s')
          | None => None
          end
      end
  end.

(** One iteration of the [for] of [writePump] on its first case: the next
    queued message is written to the socket, or the closed and drained
    queue ends the pump. Here [None] is not a panic: the pump waits on an
    open and empty (or nil) channel. *)
Definition writePump_iter (conn : Connection.t) (s : State)
    : option (loop * option bytes * State) :=
  match heap s !! Connection.Send conn with
  | None => None
  | Some ch =>
      match receive ch with
      | Some (message, ch') =>
          Some (Continue, Some message,
                set_heap (<[Connection.Send conn := ch']> (heap s)) s)
      | None => if closed ch then Some (Break, None, s) else None
      end
  end.

(** What [pubsub.ReceiveMessage] returns. *)
Inductive redis_recv :=
| RecvError (err : string)
| RecvMessage (payload : bytes).

(** [listenRedisMessages] calls [h.redis.Subscribe(ctx, "room:*")], and
    [RedisClient.Subscribe] is [client.Subscribe]: the loop is subscribed
    to the channel of that name and receives what is published on it. *)
Definition listenRedisMessages_channel : string := "room:*".

(** One iteration of the [for] of [listenRedisMessages]. *)
Definition listenRedisMessages_iter (r : redis_recv) (s : State) : option State :=
  match r with
  | RecvError err => Some (log_Printf ("Error receiving Redis message: " ++ err) s)
  | RecvMessage payload =>
      match json_Unmarshal_WSMessage payload with
      | None => Some (log_Printf "Error parsing Redis message" s)
      | Some wsMsg => broadcastToRoom (WSMessage.RoomID wsMsg) wsMsg s
      end
  end.

(** [HandleWebSocket] after the upgrade: the connection is made and sent on
    [hub.Register]; the welcome message goes to the socket directly. *)
Definition HandleWebSocket (e : env) (userID username roomID : string)
    (addr : nat) (s : State) : Connection.t * hub_event * WSMessage.t * State :=
  let '(conn, s') := NewConnection (uuid_New e) userID username roomID addr s in
  (conn, Register conn,
   WSMessage.mk "system" "system" "System" roomID
     ("Welcome " ++ username ++ " to room " ++ roomID)
     (uuid_New e) (time_Now e) ∅,
   s').

(** ** Package grpc *)

(** The gRPC status of a failed call. *)
Inductive status := Internal (msg : string) | Canceled.

(** [ChatServer.SendMessage]. The server holds the database and the Redis
    client, and no hub. *)
Definition SendMessage (e : env) (msg : pb.Message) (s : State)
    : pb.MessageResponse * option status * State :=
  let messageID := uuid_New e in
  let timestamp := time_Now e in
  match db_err e with
  | Some err =>
      (pb.mkResponse false "" "Failed to store message",
       Some (Internal "Failed to store message"),
       log_Printf ("Error storing message: " ++ err) s)
  | None =>
      let s1 :=
        db_Exec (INSERT_INTO_messages messageID (pb.UserId msg) (pb.Username msg)
                   (pb.RoomId msg) (pb.Content msg) (pb.MessageType msg)
                   timestamp (pb.Metadata msg)) s in
      let messageData :=
        messageData.mk messageID (pb.UserId msg) (pb.Username msg)
          (pb.RoomId msg) (pb.Content msg) (pb.MessageType msg) timestamp
          (pb.Metadata msg) in
      let channel := room_channel (pb.RoomId msg) in
      let s2 :=
        match redis_Publish e channel (json_Marshal_messageData messageData) s1 with
        | (Some err, s') => log_Printf ("Error publishing message: " ++ err) s'
        | (None, s') => s'
        end in
      (pb.mkResponse true messageID "", None, s2)
  end.

(** The first message [StreamMessages] sends. *)
Definition StreamMessages_initial (e : env) (req_RoomId : string) : pb.Message :=
  pb.mkMessage (uuid_New e) "system" "System" req_RoomId
    "Connected to message stream" "system" (time_Now e) ∅.

(** One iteration of the [default] case of the loop of [StreamMessages],
    subscribed to "room:" + RoomId: the message sent on the stream, if any,
    and whether the call goes on or returns a status. *)
Definition StreamMessages_iter (e : env) (req_RoomId : string) (r : redis_recv)
    (send_err : bool) (s : State)
    : option pb.Message * (loop * option status) * State :=
  match r with
  | RecvError err =>
      (None, (Continue, None), log_Printf ("Error receiving message: " ++ err) s)
  | RecvMessage payload =>
      let streamMsg :=
        pb.mkMessage (uuid_New e) "user" "User" req_RoomId
          (Payload_string payload) "text" (time_Now e) ∅ in
      if send_err
      then (None, (Break, Some (Internal "Failed to send message")), s)
      else (Some streamMsg, (Continue, None), s)
  end.

(** ** Package api *)


(** ** The goroutines of the process *)

(** [go hub.Run()], [go handler.listenRedisMessages()], and per connection
    [go h.readPump(wsConn)] and [go h.writePump(wsConn)]; RPC and HTTP
    handlers run on goroutines of their servers. *)
Inductive goroutine :=
| go_hub_Run
| go_listenRedisMessages
| go_readPump (conn : Connection.t)
| go_writePump (conn : Connection.t)
| go_server.

(** The atomic actions of the model, each one iteration or one call. *)
Inductive action :=
| Hub_receives (ev : hub_event)
| Redis_delivers (r : redis_recv)
| Pump_reads (e : env) (conn : Connection.t) (r : read_result)
| Pump_writes (conn : Connection.t)
| Rpc_SendMessage (e : env) (msg : pb.Message).

(** The goroutine an action runs on. *)
Definition runs_on (a : action) : goroutine :=
  match a with
  | Hub_receives _ => go_hub_Run
  | Redis_delivers _ => go_listenRedisMessages
  | Pump_reads _ conn _ => go_readPump conn
  | Pump_writes conn => go_writePump conn
  | Rpc_SendMessage _ _ => go_server
  end.

(** [None]: the action panics, or (for a writer pump) cannot run. *)
Definition step (a : action) (s : State) : option State :=
  match a with
  | Hub_receives ev => Run_step ev s
  | Redis_delivers r => listenRedisMessages_iter r s
  | Pump_reads e conn r => snd <$> readPump_iter e conn r s
  | Pump_writes conn => snd <$> writePump_iter conn s
  | Rpc_SendMessage e msg => Some (snd (SendMessage e msg s))
  end.

Fixpoint run (actions : list action) (s : State) : option State :=
  match actions with
  | [] => Some s
  | a :: actions' =>
      match step a s with
      | Some s' => run actions' s'
      | None => None
      end
  end.

(** Registry operations: what the hub loop receives and the room broadcasts
    that handlers perform. *)
Inductive registry_op :=
| Op_hub (ev : hub_event)
| Op_broadcastToRoom (roomID : string) (msg : WSMessage.t).

Definition apply_op (op : registry_op) (s : State) : option State :=
  match op with
  | Op_hub ev => Run_step ev s
  | Op_broadcastToRoom roomID msg => broadcastToRoom roomID msg s
  end.

Fixpoint run_ops (ops : list registry_op) (s : State) : option State :=
  match ops with
  | [] => Some s
  | op :: ops' =>
      match apply_op op s with
      | Some s' => run_ops ops' s'
      | None => None
      end
  end.

(** [op] does not register a connection whose channel is at [addr]. *)
Definition registers (addr : nat) (op : registry_op) : Prop :=
  match op with
  | Op_hub (Register conn) => Connection.Send conn = addr
  | _ => False
  end.

(** ** Well-formed registries *)

(** Every entry is filed under its own id and its channel is allocated and
    open; two entries never share a channel. [Register] files under
    [conn.ID], [NewConnection] makes a channel per connection, and every
    close comes with the deletion of the entry. *)
Definition hub_wf (s : State) : Prop :=
  (forall k c, Connections s !! k = Some c ->
     Connection.ID c = k /\
     exists ch, heap s !! Connection.Send c = Some ch /\ closed ch = false)
  /\ (forall k1 k2 c1 c2,
        Connections s !! k1 = Some c1 -> Connections s !! k2 = Some c2 ->
        Connection.Send c1 = Connection.Send c2 -> k1 = k2).

(** A checker for [hub_wf]. *)
Definition hub_wfb (s : State) : bool :=
  let entries := map_to_list (Connections s) in
  forallb
    (fun '(k, c) =>
       bool_decide (Connection.ID c = k) &&
       match heap s !! Connection.Send c with
       | Some ch => negb (closed ch)
       | None => false
       end)
    entries
  && forallb
       (fun '(k1, c1) =>
          forallb
            (fun '(k2, c2) =>
               bool_decide (Connection.Send c1 = Connection.Send c2 -> k1 = k2))
            entries)
       entries.

(** No entry of the registry has its channel at [addr]. *)
Definition unreachable (addr : nat) (s : State) : Prop :=
  forall k c, Connections s !! k = Some c -> Connection.Send c <> addr.

(** A connection that comes from [NewConnection] and has not been
    registered: its channel is open and in no entry. A connection whose
    channel is its own: only an entry under its id can hold it. *)
Definition fresh (conn : Connection.t) (s : State) : Prop :=
  (exists ch, heap s !! Connection.Send conn = Some ch /\ closed ch = false) /\
  unreachable (Connection.Send conn) s.

Definition owns_channel (conn : Connection.t) (s : State) : Prop :=
  forall k c, Connections s !! k = Some c ->
    Connection.Send c = Connection.Send conn -> k = Connection.ID conn.

Definition disciplined (a : action) (s : State) : Prop :=
  match a with
  | Hub_receives (Register conn) => fresh conn s
  | Hub_receives (Unregister conn) => owns_channel conn s
  | _ => True
  end.

(** A loop body that only touches the channel of the connection it is
    given, only removes entries, and leaves the bus, the database and the
    log alone. *)
Definition local_body (body : Connection.t -> State -> option State) : Prop :=
  forall conn s s', body conn s = Some s' ->
    Connections s' ⊆ Connections s /\
    (forall r, r <> Connection.Send conn -> heap s' !! r = heap s !! r) /\
    published s' = published s /\ db s' = db s /\ log s' = log s.

(** What a broadcast of [data] to the entries under [keys] that satisfy [P]
    does to each entry of a well-formed registry. *)
Definition fanout_effect (P : Connection.t -> Prop) (data : bytes)
    (keys : list string) (s s' : State) : Prop :=
  forall k c, Connections s !! k = Some c ->
    exists ch, heap s !! Connection.Send c = Some ch /\ closed ch = false /\
      (k ∈ keys -> P c -> length (buf ch) < cap ch ->
         heap s' !! Connection.Send c = Some (pushed ch data) /\
         Connections s' !! k = Some c) /\
      (k ∈ keys -> P c -> ~ length (buf ch) < cap ch ->
         heap s' !! Connection.Send c = Some (shut ch) /\
         Connections s' !! k = None) /\
      (~ (k ∈ keys /\ P c) ->
         heap s' !! Connection.Send c = Some ch /\ Connections s' !! k = Some c).

(** The effect of a room broadcast of [data] on a well-formed registry: a
    member with room in its queue gets [data] at the end of the queue and
    stays, a member with a full queue has its channel closed and its entry
    deleted, and a connection of another room is left alone. *)
Definition room_fanout (roomID : string) (data : bytes) (s s' : State) : Prop :=
  forall k c, Connections s !! k = Some c ->
    exists ch, heap s !! Connection.Send c = Some ch /\ closed ch = false /\
      (Connection.RoomID c = roomID -> length (buf ch) < cap ch ->
         heap s' !! Connection.Send c = Some (pushed ch data) /\
         Connections s' !! k = Some c) /\
      (Connection.RoomID c = roomID -> ~ length (buf ch) < cap ch ->
         heap s' !! Connection.Send c = Some (shut ch) /\
         Connections s' !! k = None) /\
      (Connection.RoomID c <> roomID ->
         heap s' !! Connection.Send c = Some ch /\ Connections s' !! k = Some c).

(** The queue of the channel at [addr]. *)
Definition queue (addr : nat) (s : State) : option (list bytes) :=
  buf <$> heap s !! addr.

(** *** The registry contract of the specification

    The specification gives [Register] an error, [RegistryClosed], returned
    once the registry has received a shutdown signal. *)
Inductive register_reply :=
| Registered (s' : State)
| RegistryClosed.

Definition spec_Register (shutdown_signalled : bool) (conn : Connection.t)
    (s : State) : register_reply :=
  if shutdown_signalled then RegistryClosed
  else Registered (set_Connections (<[Connection.ID conn := conn]> (Connections s)) s).

(** The reply of the code: [Hub.Run] takes the connection from the channel
    and files it. *)
Definition code_Register (conn : Connection.t) (s : State) : option register_reply :=
  Registered <$> Run_step (Register conn) s.

End ChatApp.

(** ** More of the packages: definitions *)

Section ChatAppMore.
Context `{JSON}.

(** *** The writer pump *)

(** A frame written to the socket. *)
Inductive ws_frame :=
| TextMessage (data : bytes)
| CloseMessage
| PingMessage.

(** What lets the [select] of [writePump] proceed: [conn.Send] is ready,
    with the outcomes of [NextWriter] and of [w.Close]; or the ticker
    fires, with the outcome of the ping write. *)
Inductive pump_event :=
| Send_ready (NextWriter_err Close_err : bool)
| Ticker_fires (WriteMessage_err : bool).

(** One iteration of the [for] of [writePump]: whether the loop goes on,
    the frames written and the state. [None]: the event cannot happen (an
    open and empty, or nil, channel is not ready). A receive from a closed
    channel yields what is still buffered before it reports [ok = false]. *)
Definition writePump_select (ev : pump_event) (conn : Connection.t) (s : State)
    : option (loop * list ws_frame * State) :=
  match ev with
  | Send_ready NextWriter_err Close_err =>
      match heap s !! Connection.Send conn with
      | None => None
      | Some ch =>
          match receive ch with
          | Some (message, ch') =>
              let s' := set_heap (<[Connection.Send conn := ch']> (heap s)) s in
              if NextWriter_err then Some (Break, [], s')
              else if Close_err then Some (Break, [], s')
              else Some (Continue, [TextMessage message], s')
          | None =>
              if closed ch then Some (Break, [CloseMessage], s) else None
          end
      end
  | Ticker_fires WriteMessage_err =>
      if WriteMessage_err then Some (Break, [], s)
      else Some (Continue, [PingMessage], s)
  end.

(** [writePump] along a schedule of events: the frames written, whether
    the pump has returned, and the state. *)
Fixpoint writePump (evs : list pump_event) (conn : Connection.t) (s : State)
    : option (list ws_frame * bool * State) :=
  match evs with
  | [] => Some ([], false, s)
  | ev :: evs' =>
      match writePump_select ev conn s with
      | None => None
      | Some (Break, frames, s') => Some (frames, true, s')
      | Some (Continue, frames, s') =>
          match writePump evs' conn s' with
          | None => None
          | Some (frames', returned, s'') => Some ((frames ++ frames')%list, returned, s'')
          end
      end
  end.

(** *** Runs of actions under the registration discipline *)

(** Every action of the run is [disciplined] in the state it runs in. *)
Fixpoint disciplined_run (actions : list action) (s : State) : Prop :=
  match actions with
  | [] => True
  | a :: actions' =>
      disciplined a s /\
      match step a s with
      | Some s' => disciplined_run actions' s'
      | None => True
      end
  end.

(** *** The streaming RPC as a loop *)

(** What one turn of the loop of [StreamMessages] meets: the context is
    done, or the [default] case runs with its own [uuid.New()] and
    [time.Now()], what [ReceiveMessage] returns and whether [stream.Send]
    fails. *)
Inductive stream_event :=
| Ctx_Done
| Default_case (e : env) (r : redis_recv) (send_err : bool).

(** The loop of [StreamMessages]: the messages sent, the status returned
    if the call has returned, and the state. *)
Fixpoint StreamMessages_loop (req_RoomId : string) (evs : list stream_event)
    (s : State) : list pb.Message * option status * State :=
  match evs with
  | [] => ([], None, s)
  | Ctx_Done :: _ => ([], Some Canceled, s)
  | Default_case e r send_err :: evs' =>
      match StreamMessages_iter e req_RoomId r send_err s with
      | (sent, (Continue, _), s') =>
          let '(sent', st, s'') := StreamMessages_loop req_RoomId evs' s' in
          ((option_list sent ++ sent')%list, st, s'')
      | (sent, (Break, st), s') => (option_list sent, st, s')
      end
  end.

(** [StreamMessages]: the initial message, then the loop. *)
Definition StreamMessages (e : env) (req_RoomId : string) (initial_send_err : bool)
    (evs : list stream_event) (s : State)
    : list pb.Message * option status * State :=
  if initial_send_err
  then ([], Some (Internal "Failed to send initial message"), s)
  else
    let '(sent, st, s') := StreamMessages_loop req_RoomId evs s in
    (StreamMessages_initial e req_RoomId :: sent, st, s').

(** The message the loop builds for a received payload. *)
Definition stream_message (e : env) (req_RoomId : string) (payload : bytes)
    : pb.Message :=
  pb.mkMessage (uuid_New e) "user" "User" req_RoomId (Payload_string payload)
    "text" (time_Now e) ∅.

(** The messages a run of error-free sends puts on the stream. *)
Definition stream_outputs (req_RoomId : string) (evs : list stream_event)
    : list pb.Message :=
  omap (fun ev =>
          match ev with
          | Default_case e (RecvMessage payload) _ =>
              Some (stream_message e req_RoomId payload)
          | _ => None
          end) evs.

(** No turn is a cancellation or a failed send. *)
Definition stream_runs_on (ev : stream_event) : Prop :=
  match ev with
  | Ctx_Done => False
  | Default_case _ (RecvMessage _) send_err => send_err = false
  | Default_case _ (RecvError _) _ => True
  end.

End ChatAppMore.

(** *** Package api: message history over HTTP *)

(** [models.Message]; a nil [Metadata] map is [None]. *)
Module Message.
Record t := mk {
  ID : string;
  UserID : string;
  Username : string;
  RoomID : string;
  Content : string;
  MessageType : string;
  Timestamp : Z;
  Metadata : option (gmap string string)
}.
End Message.

(** What [rows.Scan] reads from a row of [messages]. *)
Record message_row := mkRow {
  row_id : string;
  row_user_id : string;
  row_username : string;
  row_room_id : string;
  row_content : string;
  row_message_type : string;
  row_timestamp : Z;
  row_metadataJSON : string
}.

(** The two SELECT statements of [GetMessages]: the room, the optional
    bound on the timestamp and the LIMIT. *)
Inductive messages_query :=
| SELECT_messages (room_id : string) (before : option Z) (limit : Z).

(** What [QueryContext] returns: an error and nil rows, or rows, of which
    each scans ([Some]) or fails to scan ([None]). *)
Inductive messages_result :=
| QueryError
| QueryRows (rows : list (option message_row)).

(** What the handler answers. *)
Inductive messages_response :=
| Messages (status : nat) (messages : list Message.t) (has_more : bool)
| Failed (status : nat) (error : string)
| Handler_panics.

Section History.
(** [strconv.Atoi] and [strconv.ParseInt(_, 10, 64)]: the number, or
    [None] for an error. *)
Variable strconv_Atoi : string -> option Z.
Variable strconv_ParseInt : string -> option Z.

(** [limit, err := strconv.Atoi(limitStr);
    if err != nil || limit <= 0 || limit > 100 { limit = 50 }] *)
Definition effective_limit (limitStr : string) : Z :=
  match strconv_Atoi limitStr with
  | Some limit => if (limit <=? 0)%Z || (100 <? limit)%Z then 50%Z else limit
  | None => 50%Z
  end.

(** The body of the [for rows.Next()] loop. *)
Definition message_of_row (r : message_row) : Message.t :=
  Message.mk (row_id r) (row_user_id r) (row_username r) (row_room_id r)
    (row_content r) (row_message_type r) (row_timestamp r)
    (if decide (0 < String.length (row_metadataJSON r)) then Some ∅ else None).

Definition scan_messages (rows : list (option message_row)) : list Message.t :=
  message_of_row <$> omap id rows.

Definition respond_messages (limit : Z) (rows : list (option message_row))
    : messages_response :=
  let messages := scan_messages rows in
  Messages 200 messages (bool_decide (Z.of_nat (length messages) = limit)).

(** [Handler.GetMessages]: the query it sends, if any, and the answer.
    [limitStr] is the query parameter after its default "50".

    In the branch [beforeStr != ""], [before, err := strconv.ParseInt(...)]
    declares a new [err]: the result of the query is assigned to that inner
    [err], and the test [if err != nil] after the branch reads the outer
    one, which is still the error of [strconv.Atoi]. When the bound does
    not parse no query is sent and [rows] stays nil; [rows.Next()] on nil
    rows panics. *)
Definition GetMessages (roomID limitStr beforeStr : string)
    (db_Query : messages_query -> messages_result)
    : option messages_query * messages_response :=
  let limit := effective_limit limitStr in
  let failed := Failed 500 "Failed to get messages" in
  if decide (beforeStr <> "") then
    match strconv_ParseInt beforeStr with
    | Some before =>
        let q := SELECT_messages roomID (Some before) limit in
        (Some q,
         match strconv_Atoi limitStr with
         | None => failed
         | Some _ =>
             match db_Query q with
             | QueryError => Handler_panics
             | QueryRows rows => respond_messages limit rows
             end
         end)
    | None =>
        (None,
         match strconv_Atoi limitStr with
         | None => failed
         | Some _ => Handler_panics
         end)
    end
  else
    let q := SELECT_messages roomID None limit in
    (Some q,
     match db_Query q with
     | QueryError => failed
     | QueryRows rows => respond_messages limit rows
     end).

End History.

(** *** Package api: the authentication middleware *)

(** A value in [jwt.MapClaims]: a string, or anything else. *)
Inductive claim :=
| claim_string (s : string)
| claim_other.

(** What the middleware does with the request. *)
Inductive auth_result :=
| Abort (status : nat) (error : string)
| Next (user_id username : string).

Section Auth.
(** [jwt.Parse] with the handler's key function: the claims of the token
    when [err == nil && token.Valid], else [None]. *)
Variable jwt_Parse : string -> option (gmap string claim).

(** [if len(tokenString) > 7 && tokenString[:7] == "Bearer "
    { tokenString = tokenString[7:] }] *)
Definition strip_Bearer (tokenString : string) : string :=
  if decide (7 < String.length tokenString) then
    if String.eqb (String.substring 0 7 tokenString) "Bearer "
    then String.substring 7 (String.length tokenString - 7) tokenString
    else tokenString
  else tokenString.

(** [AuthMiddleware]. [jwt.Parse] always yields [jwt.MapClaims], so the
    assertion [token.Claims.(jwt.MapClaims)] holds. *)
Definition AuthMiddleware (Authorization : string) : auth_result :=
  if String.eqb Authorization "" then Abort 401 "Authorization header required"
  else
    match jwt_Parse (strip_Bearer Authorization) with
    | None => Abort 401 "Invalid token"
    | Some claims =>
        match claims !! "user_id" with
        | Some (claim_string userID) =>
            match claims !! "username" with
            | Some (claim_string username) => Next userID username
            | _ => Abort 401 "Invalid username"
            end
        | _ => Abort 401 "Invalid user ID"
        end
    end.

End Auth.

(** *** Package grpc: room membership *)

(** [pb.RoomResponse] *)
Record RoomResponse := mkRoomResponse {
  room_Success : bool;
  room_Error : string
}.

(** The Redis sets of the process, by key. *)
Abbreviation redis_sets := (gmap string (gset string)).

(** SMEMBERS, SADD and SREM: a key without members does not exist. *)
Definition SMembers (key : string) (sets : redis_sets) : gset string :=
  default ∅ (sets !! key).

Definition SAdd (key member : string) (sets : redis_sets) : redis_sets :=
  <[key := {[member]} ∪ SMembers key sets]> sets.

Definition SRem (key member : string) (sets : redis_sets) : redis_sets :=
  let rest := SMembers key sets ∖ {[member]} in
  if decide (rest = ∅) then delete key sets else <[key := rest]> sets.

(** [fmt.Sprintf("room:%s:users", roomID)] *)
Definition room_users_key (roomID : string) : string :=
  "room:" ++ roomID ++ ":users".

(** The queries of [GetOnlineUsers]: the users with given ids, and the
    fallback on the members of a room whose status is online. *)
Inductive users_query :=
| SELECT_users_by_id (ids : gset string)
| SELECT_online_members (room_id : string).

(** [pb.User] as the handler fills it. *)
Record user_row := mkUser {
  user_Id : string;
  user_Username : string;
  user_Status : string;
  user_LastSeen : Z
}.

Section Rooms.
Context `{JSON}.

(** [ChatServer.JoinRoom]: [db_err] is the outcome of the INSERT,
    [db_err2] of the UPDATE and [redis_err] of the SADD. *)
Definition JoinRoom (e : env) (req_RoomId req_UserId : string) (s : State)
    (sets : redis_sets) : RoomResponse * option status * State * redis_sets :=
  match db_err e with
  | Some err =>
      (mkRoomResponse false "Failed to join room",
       Some (Internal "Failed to join room"),
       log_Printf ("Error joining room: " ++ err) s, sets)
  | None =>
      let s1 := db_Exec (INSERT_INTO_room_members req_RoomId req_UserId) s in
      let s2 :=
        match db_err2 e with
        | None => db_Exec (UPDATE_users_online req_UserId) s1
        | Some err => log_Printf ("Error updating user status: " ++ err) s1
        end in
      let roomKey := room_users_key req_RoomId in
      match redis_err e with
      | Some err =>
          (mkRoomResponse true "", None,
           log_Printf ("Error adding user to Redis: " ++ err) s2, sets)
      | None => (mkRoomResponse true "", None, s2, SAdd roomKey req_UserId sets)
      end
  end.

(** [ChatServer.LeaveRoom]: [db_err] is the outcome of the DELETE and
    [redis_err] of the SREM. *)
Definition LeaveRoom (e : env) (req_RoomId req_UserId : string) (s : State)
    (sets : redis_sets) : RoomResponse * option status * State * redis_sets :=
  match db_err e with
  | Some err =>
      (mkRoomResponse false "Failed to leave room",
       Some (Internal "Failed to leave room"),
       log_Printf ("Error leaving room: " ++ err) s, sets)
  | None =>
      let s1 := db_Exec (DELETE_FROM_room_members req_RoomId req_UserId) s in
      let roomKey := room_users_key req_RoomId in
      match redis_err e with
      | Some err =>
          (mkRoomResponse true "", None,
           log_Printf ("Error removing user from Redis: " ++ err) s1, sets)
      | None => (mkRoomResponse true "", None, s1, SRem roomKey req_UserId sets)
      end
  end.

(** [ChatServer.GetOnlineUsers] with [getOnlineUsersFromDB]: the query it
    sends, if any, the users of the response or the status, and the state.
    [redis_err] is the outcome of SMEMBERS; [db_Query] gives, for a query,
    an error ([None]) or rows that scan or fail to scan. The log line of a
    row that fails to scan is left out. *)
Definition GetOnlineUsers (e : env) (req_RoomId : string) (sets : redis_sets)
    (db_Query : users_query -> option (list (option user_row))) (s : State)
    : option users_query * (list user_row + status) * State :=
  let roomKey := room_users_key req_RoomId in
  match redis_err e with
  | Some err =>
      let s' := log_Printf ("Error getting online users from Redis: " ++ err) s in
      let q := SELECT_online_members req_RoomId in
      (Some q,
       match db_Query q with
       | None => inr (Internal "Failed to retrieve users")
       | Some rows => inl (omap id rows)
       end, s')
  | None =>
      let userIDs := SMembers roomKey sets in
      if decide (size userIDs = 0) then (None, inl [], s)
      else
        let q := SELECT_users_by_id userIDs in
        match db_Query q with
        | None =>
            (Some q, inr (Internal "Failed to retrieve users"),
             log_Printf "Error querying users" s)
        | Some rows => (Some q, inl (omap id rows), s)
        end
  end.

End Rooms.

(** *** Package websocket: the request a socket starts with *)

Section Accept.
Context `{JSON}.

(** What [HandleWebSocket] answers before any pump runs. *)
Inductive accept_result :=
| BadRequest
| UpgradeFailed
| Accepted (conn : Connection.t) (ev : hub_event) (welcome : WSMessage.t).

(** [HandleWebSocket] from the query parameters on: the three parameters
    must be non-empty, the upgrade must succeed, and then the connection
    is made and sent on [hub.Register]. *)
Definition HandleWebSocket_request (e : env) (userID username roomID : string)
    (upgrade_err : option string) (addr : nat) (s : State)
    : accept_result * State :=
  if decide (userID = "" \/ username = "" \/ roomID = "") then (BadRequest, s)
  else
    match upgrade_err with
    | Some err =>
        (UpgradeFailed, log_Printf ("Error upgrading connection: " ++ err) s)
    | None =>
        let '(conn, ev, welcome, s') :=
          HandleWebSocket e userID username roomID addr s in
        (Accepted conn ev welcome, s')
    end.

End Accept.

(** *** Package grpc: message history *)

(** The body of the [for rows.Next()] loop of [GetMessageHistory]. A nil
    and an empty [Metadata] map are the same protobuf value. *)
Definition pb_message_of_row (r : message_row) : pb.Message :=
  pb.mkMessage (row_id r) (row_user_id r) (row_username r) (row_room_id r)
    (row_content r) (row_message_type r) (row_timestamp r) ∅.

(** [ChatServer.GetMessageHistory]: the query it sends, and the messages
    with [HasMore], or the status. The log lines of the handler are not
    part of the result. *)
Definition GetMessageHistory (req_RoomId : string) (req_Limit req_BeforeTimestamp : Z)
    (db_Query : messages_query -> messages_result)
    : messages_query * (list pb.Message * bool + status) :=
  let q :=
    SELECT_messages req_RoomId
      (if decide (0 < req_BeforeTimestamp)%Z then Some req_BeforeTimestamp else None)
      req_Limit in
  (q,
   match db_Query q with
   | QueryError => inr (Internal "Failed to retrieve messages")
   | QueryRows rows =>
       let messages := pb_message_of_row <$> omap id rows in
       inl (messages, bool_decide (Z.of_nat (length messages) = req_Limit))
   end).


(** ** A concrete process

    Three connections, alice and bob in room "R1" and carol in room "R2",
    over the symbolic codec. *)
Module Example.
#[local] Existing Instance Symbolic.codec.

Definition alice : Connection.t := Connection.mk "c-alice" "u1" "alice" "R1" 1.
Definition bob : Connection.t := Connection.mk "c-bob" "u2" "bob" "R1" 2.
Definition carol : Connection.t := Connection.mk "c-carol" "u3" "carol" "R2" 3.

(** A second connection object that carries alice's id. *)
Definition alice2 : Connection.t := Connection.mk "c-alice" "u1" "alice" "R1" 4.

(** The encoded form of an envelope, and of a [messageData] map. *)
Definition encoded (m : WSMessage.t) : bytes := Symbolic.DocWS m.
Definition encoded_data (d : messageData.t) : bytes := Symbolic.DocData d.

(** The three connections registered, nothing queued. *)
Definition joined : State :=
  mkState
    (<["c-alice" := alice]> (<["c-bob" := bob]> (<["c-carol" := carol]> ∅)))
    (<[1 := make_chan Send_capacity]>
       (<[2 := make_chan Send_capacity]> (<[3 := make_chan Send_capacity]> ∅)))
    [] [] [].

(** A frame a client sends: a chat message "hi". *)
Definition hi : WSMessage.t := WSMessage.mk "message" "" "" "" "hi" "" 0 ∅.

(** The envelope [handleChatMessage] builds from [hi] for alice when
    [uuid.New()] gives "m1" at time 100. *)
Definition hi_m1 : WSMessage.t :=
  WSMessage.mk "message" "u1" "alice" "R1" "hi" "m1" 100 ∅.

Definition env_ok : env := mkEnv "m1" 100 None None None.
Definition env_db_down : env := mkEnv "m1" 100 (Some "connection refused") None None.
Definition env_u2 : env := mkEnv "u2" 101 None None None.

(** A typing frame, and the envelope [handleTyping] builds from it for
    alice when [uuid.New()] gives "m0" at time 99; 256 copies of it fill a
    queue. *)
Definition typing_start : WSMessage.t :=
  WSMessage.mk "typing" "" "" "" "start" "" 0 ∅.

Definition env_m0 : env := mkEnv "m0" 99 None None None.

Definition stale : WSMessage.t :=
  WSMessage.mk "typing" "u1" "alice" "R1" "start" "m0" 99 ∅.

(** alice and bob registered; alice's writer has consumed nothing and her
    queue holds 256 messages. *)
Definition alice_saturated : State :=
  mkState
    (<["c-alice" := alice]> (<["c-bob" := bob]> ∅))
    (<[1 := mkChan Send_capacity (replicate 256 (encoded stale)) false]>
       (<[2 := make_chan Send_capacity]> ∅))
    [] [] [].

(** Two connections in the room whose id is "*": its channel, "room:*",
    is the one [listenRedisMessages] is subscribed to. *)
Definition ana : Connection.t := Connection.mk "c-ana" "u4" "ana" "*" 5.
Definition ben : Connection.t := Connection.mk "c-ben" "u5" "ben" "*" 6.

Definition star_room : State :=
  mkState
    (<["c-ana" := ana]> (<["c-ben" := ben]> ∅))
    (<[5 := make_chan Send_capacity]> (<[6 := make_chan Send_capacity]> ∅))
    [] [] [].

(** The envelope [handleChatMessage] builds from [hi] for ana. *)
Definition hi_star_m1 : WSMessage.t :=
  WSMessage.mk "message" "u4" "ana" "*" "hi" "m1" 100 ∅.

(** A frame of kind "system". *)
Definition system_frame : WSMessage.t :=
  WSMessage.mk "system" "" "" "" "ping" "" 0 ∅.

(** A request to the RPC [SendMessage] for room "R1". *)
Definition rpc_hello : pb.Message :=
  pb.mkMessage "" "u9" "zed" "R1" "hello" "text" 0 ∅.
End Example.

(** ** More concrete values *)

Module Scenario.
#[local] Existing Instance Symbolic.codec.

(** Redis is down; the status update fails; everything works at a later
    time. *)
Definition env_redis_down : env := mkEnv "m1" 100 None None (Some "connection reset").
Definition env_update_fails : env := mkEnv "m2" 101 None (Some "deadlock") None.
Definition env_later : env := mkEnv "m3" 102 None None None.

(** alice alone, with two envelopes waiting in her queue. *)
Definition two_queued : State :=
  mkState
    (<["c-alice" := Example.alice]> ∅)
    (<[1 := mkChan Send_capacity
              [Example.encoded Example.stale; Example.encoded Example.hi_m1] false]> ∅)
    [] [] [].

(** The same queue after the hub has unregistered her. *)
Definition two_queued_closed : State :=
  mkState ∅
    (<[1 := mkChan Send_capacity
              [Example.encoded Example.stale; Example.encoded Example.hi_m1] true]> ∅)
    [] [] [].

(** The envelopes of alice's join and leave frames. *)
Definition alice_joined : WSMessage.t :=
  WSMessage.mk "join" "u1" "alice" "R1" "alice joined the room" "m2" 101 ∅.
Definition alice_left : WSMessage.t :=
  WSMessage.mk "leave" "u1" "alice" "R1" "alice left the room" "m1" 100 ∅.
Definition join_frame : WSMessage.t := WSMessage.mk "join" "" "" "" "" "" 0 ∅.

(** A fourth client, dave, for room "R2". *)
Definition dave : Connection.t := Connection.mk "c-dave" "u6" "dave" "R2" 7.
Definition env_dave : env := mkEnv "c-dave" 103 None None None.

(** A run of the streaming call: a payload, a receive error, a payload. *)
Definition stream_run : list stream_event :=
  [Default_case Example.env_ok (RecvMessage (Example.encoded Example.hi_m1)) false;
   Default_case Example.env_u2 (RecvError "timeout") false;
   Default_case env_later (RecvMessage (Example.encoded Example.stale)) false].

(** A decimal reader for the examples: digits only. *)
Fixpoint digits (s : string) (acc : Z) : option Z :=
  match s with
  | EmptyString => Some acc
  | String c s' =>
      let n := Ascii.nat_of_ascii c in
      if ((48 <=? n) && (n <=? 57))%nat
      then digits s' (10 * acc + Z.of_nat (n - 48)%nat)%Z
      else None
  end.

Definition Atoi (s : string) : option Z :=
  match s with
  | EmptyString => None
  | _ => digits s 0
  end.

(** Three rows of room "R1", the second of which does not scan. *)
Definition rows : list (option message_row) :=
  [Some (mkRow "m7" "u1" "alice" "R1" "third" "text" 107 "{}");
   None;
   Some (mkRow "m5" "u2" "bob" "R1" "first" "text" 105 "")].

Definition db_up (q : messages_query) : messages_result := QueryRows rows.
Definition db_down (q : messages_query) : messages_result := QueryError.

(** A token parser that knows one valid token. *)
Definition claims : gmap string claim :=
  <["user_id" := claim_string "u1"]>
    (<["username" := claim_string "alice"]> (<["exp" := claim_other]> ∅)).

Definition jwt_Parse (tokenString : string) : option (gmap string claim) :=
  if String.eqb tokenString "header.payload.signature" then Some claims else None.

(** A user table that has no rows. *)
Definition no_users (q : users_query) : option (list (option user_row)) := Some [].

(** The online sets with bob in room "R1". *)
Definition bob_online : gmap string (gset string) :=
  <["room:R1:users" := {["u2"]}]> ∅.
End Scenario.


(** * Properties *)

Section Properties.
Context `{JSON}.

(** ** The select statement *)

Lemma send_or_drop_open conn data s ch :
  heap s !! Connection.Send conn = Some ch -> closed ch = false ->
  send_or_drop conn data s =
    Some (if decide (length (buf ch) < cap ch)
          then set_heap (<[Connection.Send conn := pushed ch data]> (heap s)) s
          else set_Connections (delete (Connection.ID conn) (Connections s))
                 (set_heap (<[Connection.Send conn := shut ch]> (heap s)) s)).
Proof.
  intros Hh Hc. unfold send_or_drop, select_send_default, close.
  rewrite Hh, Hc. destruct (decide _); reflexivity.
Qed.

Lemma send_or_drop_Some conn data s s' :
  send_or_drop conn data s = Some s' ->
  exists ch, heap s !! Connection.Send conn = Some ch /\ closed ch = false.
Proof.
  unfold send_or_drop, select_send_default, close.
  destruct (heap s !! Connection.Send conn) as [ch|]; [|discriminate].
  destruct (closed ch) eqn:E; [discriminate|]. eauto.
Qed.

Lemma send_or_drop_local data : local_body (fun conn => send_or_drop conn data).
Proof.
  intros conn s s' Hs.
  destruct (send_or_drop_Some _ _ _ _ Hs) as (ch & Hh & Hc).
  rewrite (send_or_drop_open _ _ _ _ Hh Hc) in Hs. injection Hs as <-.
  destruct (decide _); simpl; repeat split; try done.
  - intros r Hr. by rewrite lookup_insert_ne.
  - apply delete_subseteq.
  - intros r Hr. by rewrite lookup_insert_ne.
Qed.

Lemma guarded_local (P : Connection.t -> Prop) `{!forall c, Decision (P c)} data :
  local_body (fun conn s => if decide (P conn) then send_or_drop conn data s else Some s).
Proof.
  intros conn s s' Hs. destruct (decide (P conn)).
  - by apply (send_or_drop_local data).
  - injection Hs as <-. repeat split; auto.
Qed.

(** ** Frame properties of the range loop, in any state *)

Lemma unreachable_subseteq r s s' :
  Connections s' ⊆ Connections s -> unreachable r s -> unreachable r s'.
Proof.
  intros Hsub Hu k c Hk. apply (Hu k c). by eapply lookup_weaken.
Qed.

Lemma range_frame body keys : local_body body -> forall s s',
  range body keys s = Some s' ->
  Connections s' ⊆ Connections s /\
  (forall r, unreachable r s -> heap s' !! r = heap s !! r) /\
  published s' = published s /\ db s' = db s /\ log s' = log s.
Proof.
  intros Hb. induction keys as [|k keys IH]; intros s s' Hr; simpl in Hr.
  - injection Hr as <-. done.
  - destruct (Connections s !! k) as [conn|] eqn:Hk; [|by apply IH].
    destruct (body conn s) as [s1|] eqn:Hs1; [|discriminate].
    destruct (Hb _ _ _ Hs1) as (Hsub & Hheap & Hp & Hd & Hl).
    destruct (IH _ _ Hr) as (Hsub' & Hheap' & Hp' & Hd' & Hl').
    split; [by etrans|]. split; [|by rewrite Hp', Hd', Hl'].
    intros r Hu. rewrite Hheap' by (by eapply unreachable_subseteq).
    apply Hheap. intros ->. by apply (Hu k conn).
Qed.

(** ** The invariant along the range loop *)

Lemma hub_wf_push s k c ch v :
  hub_wf s -> Connections s !! k = Some c ->
  heap s !! Connection.Send c = Some ch ->
  hub_wf (set_heap (<[Connection.Send c := pushed ch v]> (heap s)) s).
Proof.
  intros [Hent Hinj] Hk Hh. split; simpl; [|exact Hinj].
  intros k' c' Hk'. destruct (Hent _ _ Hk') as (Hid & ch' & Hh' & Hc').
  split; [done|].
  destruct (decide (Connection.Send c = Connection.Send c')) as [E|E].
  - rewrite <- E, lookup_insert_eq. by eexists.
  - rewrite lookup_insert_ne by done. by eexists.
Qed.

Lemma hub_wf_drop s k c ch :
  hub_wf s -> (forall k' c', Connections s !! k' = Some c' ->
               Connection.Send c' = Connection.Send c -> k' = k) ->
  hub_wf (set_Connections (delete k (Connections s))
            (set_heap (<[Connection.Send c := shut ch]> (heap s)) s)).
Proof.
  intros [Hent Hinj] Hown. split; simpl.
  - intros k' c' Hk'. apply lookup_delete_Some in Hk' as [Hne Hk'].
    destruct (Hent _ _ Hk') as (Hid & ch' & Hh' & Hc').
    split; [done|]. exists ch'. split; [|done].
    rewrite lookup_insert_ne; [done|].
    intros E. apply Hne. symmetry. by eapply Hown.
  - intros k1 k2 c1 c2 H1 H2. apply lookup_delete_Some in H1 as [_ H1].
    apply lookup_delete_Some in H2 as [_ H2]. by eapply Hinj.
Qed.

Lemma fanout_effect_skip P data k0 keys s s' :
  (forall c, Connections s !! k0 = Some c -> ~ P c) ->
  fanout_effect P data keys s s' -> fanout_effect P data (k0 :: keys) s s'.
Proof.
  intros Hk0 Heff k c Hk. destruct (Heff k c Hk) as (ch & Hh & Hc & HA & HB & HC).
  exists ch. split; [done|]. split; [done|].
  assert (Hin : k ∈ k0 :: keys -> P c -> k ∈ keys).
  { intros Hin HP. apply elem_of_cons in Hin as [->|Hin]; [|done].
    by destruct (Hk0 c Hk). }
  split; [|split].
  - intros Hin' HP. by apply HA; [apply Hin|].
  - intros Hin' HP. by apply HB; [apply Hin|].
  - intros Hn. apply HC. intros [Hin' HP]. apply Hn. split; [|done].
    by apply elem_of_cons; right.
Qed.

Lemma range_guarded_wf (P : Connection.t -> Prop) `{!forall c, Decision (P c)}
    data keys :
  NoDup keys -> forall s, hub_wf s ->
  exists s',
    range (fun conn s => if decide (P conn) then send_or_drop conn data s else Some s)
      keys s = Some s' /\
    hub_wf s' /\ fanout_effect P data keys s s'.
Proof.
  induction 1 as [|k0 keys Hnin Hnd IH]; intros s Hwf.
  - exists s. split; [done|]. split; [done|].
    intros k c Hk. destruct Hwf as [Hent _].
    destruct (Hent _ _ Hk) as (_ & ch & Hh & Hc). exists ch.
    split; [done|]. split; [done|]. split; [|split].
    + intros Hin. by apply elem_of_nil in Hin.
    + intros Hin. by apply elem_of_nil in Hin.
    + done.
  - simpl. destruct (Connections s !! k0) as [c0|] eqn:Hk0.
    2:{ destruct (IH s Hwf) as (s' & Hr & Hwf' & Heff). exists s'.
        split; [done|]. split; [done|].
        apply fanout_effect_skip; [|done]. intros c Hc. congruence. }
    destruct (decide (P c0)) as [HP|HP].
    2:{ destruct (IH s Hwf) as (s' & Hr & Hwf' & Heff). exists s'.
        split; [done|]. split; [done|].
        apply fanout_effect_skip; [|done]. intros c Hc. congruence. }
    pose proof Hwf as [Hent Hinj].
    destruct (Hent _ _ Hk0) as (Hid & ch0 & Hh0 & Hc0).
    rewrite (send_or_drop_open _ _ _ _ Hh0 Hc0). rewrite Hid.
    destruct (decide (length (buf ch0) < cap ch0)) as [Hroom|Hfull].
    + set (s1 := set_heap _ s).
      assert (Hwf1 : hub_wf s1) by (by eapply hub_wf_push).
      destruct (IH s1 Hwf1) as (s' & Hr & Hwf' & Heff). exists s'.
      split; [done|]. split; [done|].
      intros k c Hk. destruct (Hent _ _ Hk) as (_ & ch & Hh & Hc).
      exists ch. split; [done|]. split; [done|].
      destruct (decide (k = k0)) as [->|Hne].
      * assert (c = c0) as -> by congruence. assert (ch = ch0) as -> by congruence.
        destruct (Heff k0 c0 Hk0) as (ch1 & Hh1 & _ & _ & _ & HC).
        unfold s1 in Hh1; simpl in Hh1. rewrite lookup_insert_eq in Hh1.
        injection Hh1 as <-.
        assert (Hnot : ~ (k0 ∈ keys /\ P c0)) by (by intros [? _]).
        split; [|split].
        -- intros _ _ _. by apply HC.
        -- intros _ _ Hf. done.
        -- intros Hn. exfalso. apply Hn. split; [|done]. apply elem_of_cons; by left.
      * assert (Hs : Connection.Send c0 <> Connection.Send c).
        { intros E. apply Hne. symmetry. by eapply Hinj. }
        destruct (Heff k c Hk) as (ch1 & Hh1 & _ & HA & HB & HC).
        unfold s1 in Hh1; simpl in Hh1. rewrite lookup_insert_ne in Hh1 by done.
        assert (ch1 = ch) as -> by congruence.
        split; [|split].
        -- intros Hin. apply HA. apply elem_of_cons in Hin as [?|?]; done.
        -- intros Hin. apply HB. apply elem_of_cons in Hin as [?|?]; done.
        -- intros Hn. apply HC. intros [Hin HP']. apply Hn. split; [|done].
           apply elem_of_cons; by right.
    + set (s1 := set_Connections _ _).
      assert (Hwf1 : hub_wf s1).
      { apply hub_wf_drop; [done|]. intros k' c' Hk' E. by eapply Hinj. }
      destruct (IH s1 Hwf1) as (s' & Hr & Hwf' & Heff). exists s'.
      split; [done|]. split; [done|].
      pose proof (guarded_local P data) as Hloc.
      destruct (range_frame _ _ Hloc _ _ Hr) as (Hsub & Hframe & _).
      intros k c Hk. destruct (Hent _ _ Hk) as (_ & ch & Hh & Hc).
      exists ch. split; [done|]. split; [done|].
      destruct (decide (k = k0)) as [->|Hne].
      * assert (c = c0) as -> by congruence. assert (ch = ch0) as -> by congruence.
        assert (Hgone : Connections s' !! k0 = None).
        { eapply lookup_weaken_None; [|exact Hsub]. apply lookup_delete_eq. }
        assert (Hu : unreachable (Connection.Send c0) s1).
        { intros k' c' Hk' E. unfold s1 in Hk'; simpl in Hk'.
          apply lookup_delete_Some in Hk' as [Hne' Hk']. apply Hne'.
          by eapply Hinj. }
        rewrite (Hframe _ Hu). unfold s1; simpl. rewrite lookup_insert_eq.
        split; [|split].
        -- intros _ _ Hf. done.
        -- intros _ _ _. done.
        -- intros Hn. exfalso. apply Hn. split; [|done]. apply elem_of_cons; by left.
      * assert (Hs : Connection.Send c0 <> Connection.Send c).
        { intros E. apply Hne. symmetry. by eapply Hinj. }
        assert (Hk1 : Connections s1 !! k = Some c).
        { unfold s1; simpl. by rewrite lookup_delete_ne. }
        destruct (Heff k c Hk1) as (ch1 & Hh1 & _ & HA & HB & HC).
        unfold s1 in Hh1; simpl in Hh1. rewrite lookup_insert_ne in Hh1 by done.
        assert (ch1 = ch) as -> by congruence.
        split; [|split].
        -- intros Hin. apply HA. apply elem_of_cons in Hin as [?|?]; done.
        -- intros Hin. apply HB. apply elem_of_cons in Hin as [?|?]; done.
        -- intros Hn. apply HC. intros [Hin HP']. apply Hn. split; [|done].
           apply elem_of_cons; by right.
Qed.

(** ** broadcastToRoom *)

Lemma keys_of_Connections (s : State) k c :
  Connections s !! k = Some c -> k ∈ (map_to_list (Connections s)).*1.
Proof.
  intros Hk. apply list_elem_of_fmap. exists (k, c). split; [done|].
  by apply elem_of_map_to_list.
Qed.

Lemma broadcastToRoom_encoded roomID msg data s :
  json_Marshal_WSMessage msg = Some data ->
  broadcastToRoom roomID msg s =
    range (fun conn s' =>
             if decide (Connection.RoomID conn = roomID)
             then send_or_drop conn data s' else Some s')
      (map_to_list (Connections s)).*1 s.
Proof. intros Hm. unfold broadcastToRoom, range_Connections. by rewrite Hm. Qed.

Lemma broadcastToRoom_frame roomID msg s s' :
  broadcastToRoom roomID msg s = Some s' ->
  Connections s' ⊆ Connections s /\
  (forall r, unreachable r s -> heap s' !! r = heap s !! r) /\
  published s' = published s /\ db s' = db s.
Proof.
  unfold broadcastToRoom, range_Connections.
  destruct (json_Marshal_WSMessage msg) as [data|].
  - intros Hr.
    pose proof (guarded_local (fun c => Connection.RoomID c = roomID) data) as Hloc.
    destruct (range_frame _ _ Hloc _ _ Hr) as (? & ? & ? & ? & ?). done.
  - intros [= <-]. done.
Qed.

Lemma broadcastToRoom_wf roomID msg data s :
  hub_wf s -> json_Marshal_WSMessage msg = Some data ->
  exists s',
    broadcastToRoom roomID msg s = Some s' /\ hub_wf s' /\
    room_fanout roomID data s s' /\
    published s' = published s /\ db s' = db s /\ log s' = log s.
Proof.
  intros Hwf Hm. rewrite (broadcastToRoom_encoded _ _ _ _ Hm).
  destruct (range_guarded_wf (fun c => Connection.RoomID c = roomID) data
              (map_to_list (Connections s)).*1
              (NoDup_fst_map_to_list _) s Hwf) as (s' & Hr & Hwf' & Heff).
  exists s'. split; [done|]. split; [done|].
  pose proof (guarded_local (fun c => Connection.RoomID c = roomID) data) as Hloc.
  destruct (range_frame _ _ Hloc _ _ Hr) as (_ & _ & Hp & Hd & Hl).
  split; [|done].
  intros k c Hk. destruct (Heff k c Hk) as (ch & Hh & Hc & HA & HB & HC).
  exists ch. split; [done|]. split; [done|].
  pose proof (keys_of_Connections _ _ _ Hk) as Hin.
  split; [|split].
  - intros HP. by apply HA.
  - intros HP. by apply HB.
  - intros HP. apply HC. by intros [_ ?].
Qed.

(** In a well-formed registry a room broadcast returns, whether or not the
    envelope encodes, and the registry stays well-formed. *)
Lemma broadcastToRoom_total roomID msg s :
  hub_wf s ->
  exists s', broadcastToRoom roomID msg s = Some s' /\ hub_wf s'.
Proof.
  intros Hwf. destruct (json_Marshal_WSMessage msg) as [data|] eqn:Hm.
  - destruct (broadcastToRoom_wf roomID msg data s Hwf Hm) as (s' & ? & ? & _).
    by exists s'.
  - unfold broadcastToRoom. rewrite Hm. eexists. split; [done|].
    destruct Hwf as [Hent Hinj]. split; simpl; done.
Qed.

(** ** Traces of registry operations *)

Lemma apply_op_unreachable op r s s' :
  ~ registers r op -> apply_op op s = Some s' -> unreachable r s ->
  unreachable r s' /\ queue r s' = queue r s.
Proof.
  unfold queue.
  intros Hreg Hop Hu. destruct op as [[conn|conn|message]|roomID msg]; simpl in *.
  - injection Hop as <-. split; [|done].
    intros k c Hk. simpl in Hk. apply lookup_insert_Some in Hk as [[_ <-]|[_ Hk]].
    + done.
    + by eapply Hu.
  - destruct (Connections s !! Connection.ID conn) eqn:Hk.
    2:{ by injection Hop as <-. }
    destruct (heap s !! Connection.Send conn) as [ch|] eqn:Hh; [|done].
    unfold close in Hop. destruct (closed ch); [done|]. injection Hop as <-.
    split.
    + eapply unreachable_subseteq; [|exact Hu]. apply delete_subseteq.
    + simpl. destruct (decide (Connection.Send conn = r)) as [<-|Hne].
      * by rewrite lookup_insert_eq, Hh.
      * by rewrite lookup_insert_ne.
  - destruct (range_frame _ _ (send_or_drop_local message) _ _ Hop)
      as (Hsub & Hheap & _).
    split; [by eapply unreachable_subseteq|]. by rewrite Hheap.
  - destruct (broadcastToRoom_frame _ _ _ _ Hop) as (Hsub & Hheap & _).
    split; [by eapply unreachable_subseteq|]. by rewrite Hheap.
Qed.

Lemma run_ops_unreachable ops r : forall s s',
  Forall (fun op => ~ registers r op) ops ->
  run_ops ops s = Some s' -> unreachable r s ->
  unreachable r s' /\ queue r s' = queue r s.
Proof.
  induction ops as [|op ops IH]; intros s s' Hall Hrun Hu; simpl in Hrun.
  - by injection Hrun as <-.
  - apply Forall_cons in Hall as [Hop Hall].
    destruct (apply_op op s) as [s1|] eqn:H1; [|done].
    destruct (apply_op_unreachable _ _ _ _ Hop H1 Hu) as [Hu1 Hb1].
    destruct (IH _ _ Hall Hrun Hu1) as [Hu' Hb']. split; [done|].
    by rewrite Hb', Hb1.
Qed.

(** ** The invariant holds along the life of the hub *)

Lemma hub_wf_NewHub : hub_wf NewHub.
Proof. split; simpl; intros *; by rewrite lookup_empty. Qed.

(** [NewConnection] at a free address keeps the invariant and returns a
    connection whose channel is open and that no entry holds. *)
Lemma hub_wf_NewConnection id userID username roomID addr s :
  hub_wf s -> heap s !! addr = None ->
  let '(conn, s') := NewConnection id userID username roomID addr s in
  hub_wf s' /\ unreachable (Connection.Send conn) s' /\
  heap s' !! Connection.Send conn = Some (make_chan Send_capacity).
Proof.
  intros [Hent Hinj] Hfree. simpl. split; [split; simpl|split; simpl].
  - intros k c Hk. destruct (Hent _ _ Hk) as (Hid & ch & Hh & Hc).
    split; [done|]. exists ch. split; [|done].
    rewrite lookup_insert_ne; [done|]. intros ->. congruence.
  - exact Hinj.
  - intros k c Hk E. destruct (Hent _ _ Hk) as (_ & ch & Hh & _).
    simpl in E. congruence.
  - by rewrite lookup_insert_eq.
Qed.

Lemma hub_wf_Register conn ch s :
  hub_wf s -> heap s !! Connection.Send conn = Some ch -> closed ch = false ->
  unreachable (Connection.Send conn) s ->
  hub_wf (set_Connections (<[Connection.ID conn := conn]> (Connections s)) s).
Proof.
  intros [Hent Hinj] Hh Hc Hu. split; simpl.
  - intros k c Hk. apply lookup_insert_Some in Hk as [[<- <-]|[Hne Hk]].
    + split; [done|]. by exists ch.
    + by apply Hent.
  - intros k1 k2 c1 c2 H1 H2 E.
    apply lookup_insert_Some in H1 as [[<- <-]|[Hne1 H1]];
      apply lookup_insert_Some in H2 as [[<- <-]|[Hne2 H2]].
    + done.
    + by destruct (Hu _ _ H2).
    + by destruct (Hu _ _ H1).
    + by eapply Hinj.
Qed.

(** [Unregister] of a connection whose channel no entry under another id
    holds. *)
Lemma hub_wf_Unregister conn s s' :
  hub_wf s ->
  (forall k c, Connections s !! k = Some c ->
     Connection.Send c = Connection.Send conn -> k = Connection.ID conn) ->
  Run_step (Unregister conn) s = Some s' -> hub_wf s'.
Proof.
  intros Hwf Hown. simpl.
  destruct (Connections s !! Connection.ID conn) eqn:Hk.
  2:{ by intros [= <-]. }
  destruct (heap s !! Connection.Send conn) as [ch|]; [|done].
  unfold close. destruct (closed ch); [done|]. intros [= <-].
  by apply (hub_wf_drop s (Connection.ID conn) conn ch).
Qed.

Lemma hub_wf_Broadcast message s :
  hub_wf s -> exists s', Run_step (Broadcast message) s = Some s' /\ hub_wf s'.
Proof.
  intros Hwf. simpl. unfold range_Connections.
  destruct (range_guarded_wf (fun _ => True) message
              (map_to_list (Connections s)).*1
              (NoDup_fst_map_to_list _) s Hwf) as (s' & Hr & Hwf' & _).
  exists s'. split; [|done]. rewrite <- Hr. reflexivity.
Qed.

Lemma readPump_iter_wf e conn r s :
  hub_wf s ->
  exists l s', readPump_iter e conn r s = Some (l, s') /\ hub_wf s'.
Proof.
  intros Hwf. destruct r as [unexpected err|message]; simpl.
  - eexists _, _. split; [reflexivity|]. by destruct unexpected.
  - destruct (json_Unmarshal_WSMessage message) as [m|]; [|by eexists _, _].
    assert (Hh : exists s', handleMessage e conn m s = Some s' /\ hub_wf s').
    { unfold handleMessage.
      destruct (decide _); [|destruct (decide _); [|destruct (decide _);
        [|destruct (decide _)]]].
      - unfold handleChatMessage. destruct (db_err e); [by eexists|].
        match goal with |- context [broadcastToRoom ?r ?m ?s1] =>
          destruct (broadcastToRoom_total r m s1) as (s2 & -> & Hwf2); [exact Hwf|] end.
        eexists. split; [reflexivity|]. unfold publishToRedis, redis_Publish.
        destruct (json_Marshal_WSMessage _); [destruct (redis_err e)|]; exact Hwf2.
      - unfold handleJoinRoom. destruct (db_err e); [by eexists|].
        apply broadcastToRoom_total. by destruct (db_err2 e).
      - unfold handleLeaveRoom. apply broadcastToRoom_total. by destruct (db_err e).
      - unfold handleTyping. by apply broadcastToRoom_total.
      - by eexists. }
    destruct Hh as (s' & -> & Hwf'). by eexists _, _.
Qed.

(** Every action that can run keeps the registry well-formed, when the hub
    is sent new connections to register and connections with their own
    channel to unregister. *)
Lemma step_preserves_hub_wf a s s' :
  hub_wf s -> disciplined a s -> step a s = Some s' -> hub_wf s'.
Proof.
  intros Hwf Hd Hs. destruct a as [[conn|conn|message]|r|e conn r|conn|e msg];
    simpl in Hs.
  - injection Hs as <-. destruct Hd as [(ch & Hh & Hc) Hu].
    by eapply hub_wf_Register.
  - by eapply hub_wf_Unregister.
  - destruct (hub_wf_Broadcast message s Hwf) as (s1 & Hb & Hwf1).
    simpl in Hb. congruence.
  - destruct r as [err|payload]; simpl in Hs.
    + by injection Hs as <-.
    + destruct (json_Unmarshal_WSMessage payload) as [m|].
      * destruct (broadcastToRoom_total (WSMessage.RoomID m) m s Hwf)
          as (s1 & Hb & Hwf1). congruence.
      * by injection Hs as <-.
  - destruct (readPump_iter_wf e conn r s Hwf) as (l & s1 & Hr & Hwf1).
    rewrite Hr in Hs. simpl in Hs. congruence.
  - unfold writePump_iter in Hs.
    destruct (heap s !! Connection.Send conn) as [ch|] eqn:Hh; [|done].
    unfold receive in Hs. destruct (buf ch) as [|v rest] eqn:Hbuf.
    + destruct (closed ch); simpl in Hs; [|done]. by injection Hs as <-.
    + simpl in Hs. injection Hs as <-. destruct Hwf as [Hent Hinj].
      split; simpl; [|exact Hinj].
      intros k c Hk. destruct (Hent _ _ Hk) as (Hid & ch' & Hh' & Hc').
      split; [done|].
      destruct (decide (Connection.Send conn = Connection.Send c)) as [E|E].
      * rewrite E, lookup_insert_eq. eexists. split; [done|]. simpl.
        rewrite E in Hh. congruence.
      * rewrite lookup_insert_ne by done. by eexists.
  - injection Hs as <-. unfold SendMessage.
    destruct (db_err e); simpl; [exact Hwf|].
    unfold redis_Publish.
    destruct (json_Marshal_messageData _); [destruct (redis_err e)|]; exact Hwf.
Qed.

Lemma hub_wfb_sound s : hub_wfb s = true -> hub_wf s.
Proof.
  unfold hub_wfb. intros Hb. apply andb_prop in Hb as [H1 H2].
  rewrite forallb_forall in H1. rewrite forallb_forall in H2. split.
  - intros k c Hk. apply elem_of_map_to_list, list_elem_of_In in Hk.
    specialize (H1 _ Hk). simpl in H1. apply andb_prop in H1 as [Hid Hch].
    apply bool_decide_eq_true in Hid. split; [done|].
    destruct (heap s !! Connection.Send c) as [ch|]; [|done].
    exists ch. split; [done|]. by destruct (closed ch).
  - intros k1 k2 c1 c2 Hk1 Hk2.
    apply elem_of_map_to_list, list_elem_of_In in Hk1.
    apply elem_of_map_to_list, list_elem_of_In in Hk2.
    specialize (H2 _ Hk1). simpl in H2. rewrite forallb_forall in H2.
    specialize (H2 _ Hk2). simpl in H2. by apply bool_decide_eq_true in H2.
Qed.


(** ** The room broadcast *)

(** C4, amended: in a well-formed registry, [broadcastToRoom roomID msg]
    returns and has queued the encoded envelope at the end of the queue of
    every registered connection of room [roomID] whose queue had a free
    slot, and has left the channel of every registered connection of
    another room as it was. *)
Theorem broadcastToRoom_reaches_room_only roomID msg data s :
  hub_wf s -> json_Marshal_WSMessage msg = Some data ->
  exists s',
    broadcastToRoom roomID msg s = Some s' /\
    forall k c ch,
      Connections s !! k = Some c -> heap s !! Connection.Send c = Some ch ->
      (Connection.RoomID c = roomID -> length (buf ch) < cap ch ->
         heap s' !! Connection.Send c = Some (pushed ch data) /\
         Connections s' !! k = Some c) /\
      (Connection.RoomID c <> roomID ->
         heap s' !! Connection.Send c = Some ch /\
         Connections s' !! k = Some c).
Proof.
  intros Hwf Hm.
  destruct (broadcastToRoom_wf roomID msg data s Hwf Hm) as (s' & Hb & _ & Hf & _).
  exists s'. split; [done|]. intros k c ch Hk Hh.
  destruct (Hf k c Hk) as (ch' & Hh' & _ & HA & _ & HC).
  assert (ch' = ch) as -> by congruence. split; [exact HA|exact HC].
Qed.

(** C5: in a well-formed registry, a registered connection of the room
    whose queue of 256 slots is full when [broadcastToRoom] runs gets
    nothing queued: its channel is closed with the same 256 messages, its
    entry is deleted, no entry holds its channel, and in every later run of
    hub events and room broadcasts that does not register it again it stays
    out of the registry and its queue is never added to. *)
Theorem full_queue_is_dropped roomID msg data s k c ch :
  hub_wf s -> json_Marshal_WSMessage msg = Some data ->
  Connections s !! k = Some c -> Connection.RoomID c = roomID ->
  heap s !! Connection.Send c = Some ch ->
  cap ch = Send_capacity -> length (buf ch) = 256 ->
  exists s',
    broadcastToRoom roomID msg s = Some s' /\
    heap s' !! Connection.Send c = Some (shut ch) /\
    queue (Connection.Send c) s' = Some (buf ch) /\
    Connections s' !! k = None /\
    unreachable (Connection.Send c) s' /\
    forall ops s'',
      Forall (fun op => ~ registers (Connection.Send c) op) ops ->
      run_ops ops s' = Some s'' ->
      unreachable (Connection.Send c) s'' /\
      queue (Connection.Send c) s'' = Some (buf ch).
Proof.
  intros Hwf Hm Hk Hroom Hh Hcap Hlen.
  destruct (broadcastToRoom_wf roomID msg data s Hwf Hm) as (s' & Hb & _ & Hf & _).
  exists s'. split; [done|].
  destruct (Hf k c Hk) as (ch' & Hh' & _ & _ & HB & _).
  assert (ch' = ch) as -> by congruence.
  destruct (HB Hroom) as [Hshut Hgone].
  { rewrite Hcap, Hlen. unfold Send_capacity. lia. }
  assert (Hq : queue (Connection.Send c) s' = Some (buf ch)).
  { unfold queue. by rewrite Hshut. }
  assert (Hu : unreachable (Connection.Send c) s').
  { intros k' c' Hk' E.
    destruct (broadcastToRoom_frame _ _ _ _ Hb) as (Hsub & _).
    pose proof (lookup_weaken _ _ _ _ Hk' Hsub) as Hk0.
    destruct Hwf as [_ Hinj]. assert (k' = k) as -> by (by eapply Hinj).
    congruence. }
  repeat split; try done.
  - by eapply run_ops_unreachable.
  - rewrite <- Hq. by eapply run_ops_unreachable.
Qed.

(** ** Register *)

(** C10: [Register] always returns, files the connection under its id and
    touches no channel. When the registry is well-formed and another
    connection object [prev] was filed under that id, the channel of [prev]
    is still open, [prev] is in no entry, and in every later run of hub
    events and room broadcasts that does not register [prev] again it
    stays in no entry and nothing is added to its queue. *)
Theorem Register_last_writer_wins conn s :
  exists s',
    Run_step (Register conn) s = Some s' /\
    Connections s' !! Connection.ID conn = Some conn /\
    heap s' = heap s /\
    forall prev,
      hub_wf s ->
      Connections s !! Connection.ID conn = Some prev ->
      Connection.Send prev <> Connection.Send conn ->
      (exists ch, heap s' !! Connection.Send prev = Some ch /\ closed ch = false) /\
      (forall k, Connections s' !! k <> Some prev) /\
      forall ops s'',
        Forall (fun op => ~ registers (Connection.Send prev) op) ops ->
        run_ops ops s' = Some s'' ->
        (forall k, Connections s'' !! k <> Some prev) /\
        queue (Connection.Send prev) s'' = queue (Connection.Send prev) s.
Proof.
  eexists. split; [reflexivity|]. simpl. split; [apply lookup_insert_eq|].
  split; [done|]. intros prev [Hent Hinj] Hprev Hne.
  set (s' := set_Connections _ s).
  assert (Hu : unreachable (Connection.Send prev) s').
  { intros k c Hk E. unfold s' in Hk; simpl in Hk.
    apply lookup_insert_Some in Hk as [[_ <-]|[Hk1 Hk]].
    - by apply Hne.
    - apply Hk1. symmetry. by eapply Hinj. }
  split; [|split].
  - by destruct (Hent _ _ Hprev) as (_ & Hopen).
  - intros k Hk. by apply (Hu k prev).
  - intros ops s'' Hall Hrun.
    destruct (run_ops_unreachable _ _ _ _ Hall Hrun Hu) as [Hu' Hq].
    split; [|exact Hq]. intros k Hk. by apply (Hu' k prev).
Qed.

(** C7, amended: the registry has no shutdown signal and no
    [RegistryClosed]: in every state, so whatever the hub has received
    before, [Hub.Run] accepts a [Register] and files the connection, which
    is the reply the specification gives before any shutdown. *)
Theorem Register_is_always_accepted s conn :
  code_Register conn s = Some (spec_Register false conn s) /\
  code_Register conn s <> Some RegistryClosed /\
  exists s', Run_step (Register conn) s = Some s' /\
             Connections s' !! Connection.ID conn = Some conn.
Proof.
  unfold code_Register, spec_Register. simpl.
  split; [done|]. split; [done|]. eexists. split; [done|]. simpl.
  apply lookup_insert_eq.
Qed.

(** ** Persistence *)

(** C2, amended: when the insert fails, [handleChatMessage] logs the error
    and returns: no queue and no registry entry changes and nothing is
    published; the RPC [SendMessage] answers with the status Internal and
    publishes nothing either. *)
Theorem persistence_failure_stops_delivery e conn msg rpc s err :
  db_err e = Some err ->
  (exists s',
     handleChatMessage e conn msg s = Some s' /\
     Connections s' = Connections s /\ heap s' = heap s /\
     published s' = published s /\ db s' = db s /\
     log s' = (log s ++ [("Error storing message: " ++ err)%string])%list) /\
  (exists resp s',
     SendMessage e rpc s = (resp, Some (Internal "Failed to store message"), s') /\
     pb.Success resp = false /\
     Connections s' = Connections s /\ heap s' = heap s /\
     published s' = published s /\ db s' = db s).
Proof.
  intros He. unfold handleChatMessage, SendMessage. rewrite He. split.
  - eexists. split; [reflexivity|]. done.
  - eexists _, _. split; [reflexivity|]. done.
Qed.

(** X25: when the insert succeeds in a well-formed registry, the row is
    stored, the envelope carries the id drawn at ingress, the room gets it
    and it is published on the channel of the room. *)
Lemma handleChatMessage_stored e conn msg data s :
  let envelope :=
    WSMessage.mk "message" (Connection.UserID conn) (Connection.Username conn)
      (Connection.RoomID conn) (WSMessage.Content msg) (uuid_New e) (time_Now e)
      (WSMessage.Metadata msg) in
  hub_wf s -> db_err e = None -> redis_err e = None ->
  json_Marshal_WSMessage envelope = Some data ->
  exists s',
    handleChatMessage e conn msg s = Some s' /\ hub_wf s' /\
    room_fanout (Connection.RoomID conn) data s s' /\
    published s' = (published s ++ [(room_channel (Connection.RoomID conn), data)])%list /\
    db s' = (db s ++ [INSERT_INTO_messages (uuid_New e) (Connection.UserID conn)
                        (Connection.Username conn) (Connection.RoomID conn)
                        (WSMessage.Content msg) "text" (time_Now e)
                        (WSMessage.Metadata msg)])%list.
Proof.
  intros envelope Hwf Hdb Hredis Hm. unfold handleChatMessage. rewrite Hdb.
  set (s1 := db_Exec _ s).
  assert (Hwf1 : hub_wf s1) by exact Hwf.
  destruct (broadcastToRoom_wf (Connection.RoomID conn) envelope data s1 Hwf1 Hm)
    as (s2 & Hb & Hwf2 & Hf & Hp & Hd & Hl).
  fold envelope. rewrite Hb. eexists. split; [reflexivity|].
  unfold publishToRedis, redis_Publish. rewrite Hm, Hredis. simpl.
  split; [exact Hwf2|]. split; [exact Hf|]. by rewrite Hp, Hd.
Qed.

(** C8, amended: a [SendMessage] RPC whose insert succeeds stores the row,
    publishes the encoded [messageData] on the channel "room:" + room id
    when Redis accepts it (a failed publish is logged and the call still
    succeeds), returns the id it drew, and performs no local broadcast: the
    registry and every queue are as before. *)
Theorem SendMessage_persists_and_publishes e rpc s :
  db_err e = None ->
  exists s',
    SendMessage e rpc s = (pb.mkResponse true (uuid_New e) "", None, s') /\
    db s' = (db s ++ [INSERT_INTO_messages (uuid_New e) (pb.UserId rpc)
                        (pb.Username rpc) (pb.RoomId rpc) (pb.Content rpc)
                        (pb.MessageType rpc) (time_Now e) (pb.Metadata rpc)])%list /\
    Connections s' = Connections s /\ heap s' = heap s /\
    (forall data,
       redis_err e = None ->
       json_Marshal_messageData
         (messageData.mk (uuid_New e) (pb.UserId rpc) (pb.Username rpc)
            (pb.RoomId rpc) (pb.Content rpc) (pb.MessageType rpc) (time_Now e)
            (pb.Metadata rpc)) = Some data ->
       published s' = (published s ++ [(("room:" ++ pb.RoomId rpc)%string, data)])%list) /\
    (forall err, redis_err e = Some err -> published s' = published s).
Proof.
  intros Hdb. unfold SendMessage. rewrite Hdb. eexists. split; [reflexivity|].
  unfold redis_Publish.
  destruct (json_Marshal_messageData _) as [data|] eqn:Hm;
    destruct (redis_err e) as [err|] eqn:Hr; simpl; repeat split; try done.
  - intros data' _ [= <-]. done.
Qed.

(** ** The four frame handlers *)

(** A state that differs from [s] in the bus, the database and the log
    only is as good a starting point for a room broadcast. *)
Lemma room_fanout_from s0 s roomID data s' :
  Connections s0 = Connections s -> heap s0 = heap s ->
  room_fanout roomID data s0 s' -> room_fanout roomID data s s'.
Proof.
  intros Hc Hh Hf k c Hk. rewrite <- Hc in Hk.
  destruct (Hf k c Hk) as (ch & Hch & Hrest). exists ch.
  rewrite <- Hh. by split.
Qed.

Lemma handleChatMessage_delivers e conn msg data s :
  hub_wf s -> db_err e = None ->
  json_Marshal_WSMessage
    (WSMessage.mk "message" (Connection.UserID conn) (Connection.Username conn)
       (Connection.RoomID conn) (WSMessage.Content msg) (uuid_New e) (time_Now e)
       (WSMessage.Metadata msg)) = Some data ->
  exists s',
    handleChatMessage e conn msg s = Some s' /\
    db s' = (db s ++ [INSERT_INTO_messages (uuid_New e) (Connection.UserID conn)
                        (Connection.Username conn) (Connection.RoomID conn)
                        (WSMessage.Content msg) "text" (time_Now e)
                        (WSMessage.Metadata msg)])%list /\
    room_fanout (Connection.RoomID conn) data s s' /\
    published s' = (published s
                    ++ match redis_err e with
                       | None => [(room_channel (Connection.RoomID conn), data)]
                       | Some _ => []
                       end)%list.
Proof.
  intros Hwf Hdb Hm. unfold handleChatMessage. rewrite Hdb.
  match goal with |- context [broadcastToRoom ?r ?m ?s1] =>
    assert (Hwf1 : hub_wf s1) by exact Hwf;
    destruct (broadcastToRoom_wf r m data s1 Hwf1 Hm)
      as (s2 & Hb & _ & Hf & Hp & Hd & _)
  end.
  rewrite Hb. eexists. split; [reflexivity|].
  unfold publishToRedis, redis_Publish. rewrite Hm.
  destruct (redis_err e) as [err|]; simpl.
  - split; [by rewrite Hd|]. split; [exact Hf|]. by rewrite Hp, app_nil_r.
  - split; [by rewrite Hd|]. split; [exact Hf|]. by rewrite Hp.
Qed.

Lemma handleJoinRoom_delivers e conn msg data s :
  hub_wf s -> db_err e = None ->
  json_Marshal_WSMessage
    (WSMessage.mk "join" (Connection.UserID conn) (Connection.Username conn)
       (Connection.RoomID conn) (Connection.Username conn ++ " joined the room")
       (uuid_New e) (time_Now e) ∅) = Some data ->
  exists s',
    handleJoinRoom e conn msg s = Some s' /\
    db s' = (db s
             ++ INSERT_INTO_room_members (Connection.RoomID conn)
                  (Connection.UserID conn)
                :: match db_err2 e with
                   | None => [UPDATE_users_online (Connection.UserID conn)]
                   | Some _ => []
                   end)%list /\
    room_fanout (Connection.RoomID conn) data s s' /\
    published s' = published s.
Proof.
  intros Hwf Hdb Hm. unfold handleJoinRoom. rewrite Hdb.
  match goal with |- context [broadcastToRoom ?r ?m ?s2] =>
    assert (Hwf2 : hub_wf s2) by (destruct (db_err2 e); exact Hwf);
    destruct (broadcastToRoom_wf r m data s2 Hwf2 Hm)
      as (s' & Hb & _ & Hf & Hp & Hd & _);
    assert (Hheap : heap s2 = heap s) by (by destruct (db_err2 e));
    assert (Hconn : Connections s2 = Connections s) by (by destruct (db_err2 e));
    assert (Hpub : published s2 = published s) by (by destruct (db_err2 e));
    assert (Hdb2 : db s2 = (db s
              ++ INSERT_INTO_room_members (Connection.RoomID conn)
                   (Connection.UserID conn)
                 :: match db_err2 e with
                    | None => [UPDATE_users_online (Connection.UserID conn)]
                    | Some _ => []
                    end)%list)
      by (destruct (db_err2 e); simpl; [done|by rewrite <- app_assoc])
  end.
  exists s'. split; [exact Hb|]. split; [by rewrite Hd|].
  split; [exact (room_fanout_from _ _ _ _ _ Hconn Hheap Hf)|by rewrite Hp].
Qed.

Lemma handleLeaveRoom_delivers e conn msg data s :
  hub_wf s ->
  json_Marshal_WSMessage
    (WSMessage.mk "leave" (Connection.UserID conn) (Connection.Username conn)
       (Connection.RoomID conn) (Connection.Username conn ++ " left the room")
       (uuid_New e) (time_Now e) ∅) = Some data ->
  exists s',
    handleLeaveRoom e conn msg s = Some s' /\
    db s' = (db s ++ match db_err e with
                     | None => [DELETE_FROM_room_members (Connection.RoomID conn)
                                  (Connection.UserID conn)]
                     | Some _ => []
                     end)%list /\
    room_fanout (Connection.RoomID conn) data s s' /\
    published s' = published s.
Proof.
  intros Hwf Hm. unfold handleLeaveRoom.
  match goal with |- context [broadcastToRoom ?r ?m ?s1] =>
    assert (Hwf1 : hub_wf s1) by (destruct (db_err e); exact Hwf);
    destruct (broadcastToRoom_wf r m data s1 Hwf1 Hm)
      as (s' & Hb & _ & Hf & Hp & Hd & _);
    assert (Hheap : heap s1 = heap s) by (by destruct (db_err e));
    assert (Hconn : Connections s1 = Connections s) by (by destruct (db_err e));
    assert (Hpub : published s1 = published s) by (by destruct (db_err e));
    assert (Hdb1 : db s1 = (db s ++ match db_err e with
                     | None => [DELETE_FROM_room_members (Connection.RoomID conn)
                                  (Connection.UserID conn)]
                     | Some _ => []
                     end)%list)
      by (destruct (db_err e); simpl; [by rewrite app_nil_r|done])
  end.
  exists s'. split; [exact Hb|]. split; [by rewrite Hd|].
  split; [exact (room_fanout_from _ _ _ _ _ Hconn Hheap Hf)|by rewrite Hp].
Qed.

Lemma handleTyping_delivers e conn msg data s :
  hub_wf s ->
  json_Marshal_WSMessage
    (WSMessage.mk "typing" (Connection.UserID conn) (Connection.Username conn)
       (Connection.RoomID conn) (WSMessage.Content msg) (uuid_New e) (time_Now e) ∅)
    = Some data ->
  exists s',
    handleTyping e conn msg s = Some s' /\
    db s' = db s /\
    room_fanout (Connection.RoomID conn) data s s' /\
    published s' = published s.
Proof.
  intros Hwf Hm. unfold handleTyping.
  match goal with |- context [broadcastToRoom ?r ?m s] =>
    destruct (broadcastToRoom_wf r m data s Hwf Hm) as (s' & Hb & _ & Hf & Hp & Hd & _)
  end.
  exists s'. by rewrite Hb.
Qed.

(** ** The read loop *)

(** C9, amended: a frame that does not decode, and a decoded frame whose
    kind is none of "message", "join", "leave", "typing" (so also "system"
    and "heartbeat"), only add a line to the log: the loop continues and
    the registry, the queues, the bus and the database are as before.

    A frame of kind "message" goes to [handleChatMessage]: when the INSERT
    fails only a line is logged; otherwise the row is stored, the envelope
    of kind "message" with the id and time drawn at ingress is queued for
    the members of the connection's room, and it is published on the
    channel of the room unless Redis refuses. A frame of kind "join" goes
    to [handleJoinRoom]: when the INSERT fails only a line is logged;
    otherwise the membership row and, if it succeeds, the status update
    are stored and an envelope of kind "join" is queued for the room. A
    frame of kind "leave" goes to [handleLeaveRoom]: the DELETE is stored
    if it succeeds and an envelope of kind "leave" is queued for the room
    in either case. A frame of kind "typing" goes to [handleTyping]: an
    envelope of kind "typing" is queued for the room and nothing is
    stored. Only the kind "message" publishes on the bus.

    In a well-formed registry every iteration returns, leaves the registry
    well-formed, and breaks the loop exactly on a read error. *)
Theorem readPump_dispatches_by_kind e conn r s :
  (forall message,
     r = ReadFrame message -> json_Unmarshal_WSMessage message = None ->
     readPump_iter e conn r s = Some (Continue, log_Printf "Error parsing message" s)) /\
  (forall message m,
     r = ReadFrame message -> json_Unmarshal_WSMessage message = Some m ->
     let envelope kind content metadata :=
       WSMessage.mk kind (Connection.UserID conn) (Connection.Username conn)
         (Connection.RoomID conn) content (uuid_New e) (time_Now e) metadata in
     let delivered data db_rows bus_entries :=
       exists s',
         readPump_iter e conn r s = Some (Continue, s') /\
         db s' = (db s ++ db_rows)%list /\
         room_fanout (Connection.RoomID conn) data s s' /\
         published s' = (published s ++ bus_entries)%list in
     (WSMessage.Type_ m ∉ ["message"; "join"; "leave"; "typing"] ->
        readPump_iter e conn r s =
          Some (Continue,
                log_Printf ("Unknown message type: " ++ WSMessage.Type_ m) s)) /\
     (WSMessage.Type_ m = "message" ->
        readPump_iter e conn r s = pair Continue <$> handleChatMessage e conn m s /\
        (forall err, db_err e = Some err ->
           readPump_iter e conn r s =
             Some (Continue, log_Printf ("Error storing message: " ++ err) s)) /\
        (forall data,
           hub_wf s -> db_err e = None ->
           json_Marshal_WSMessage
             (envelope "message" (WSMessage.Content m) (WSMessage.Metadata m))
             = Some data ->
           delivered data
             [INSERT_INTO_messages (uuid_New e) (Connection.UserID conn)
                (Connection.Username conn) (Connection.RoomID conn)
                (WSMessage.Content m) "text" (time_Now e) (WSMessage.Metadata m)]
             match redis_err e with
             | None => [(room_channel (Connection.RoomID conn), data)]
             | Some _ => []
             end)) /\
     (WSMessage.Type_ m = "join" ->
        readPump_iter e conn r s = pair Continue <$> handleJoinRoom e conn m s /\
        (forall err, db_err e = Some err ->
           readPump_iter e conn r s =
             Some (Continue, log_Printf ("Error joining room: " ++ err) s)) /\
        (forall data,
           hub_wf s -> db_err e = None ->
           json_Marshal_WSMessage
             (envelope "join" (Connection.Username conn ++ " joined the room") ∅)
             = Some data ->
           delivered data
             (INSERT_INTO_room_members (Connection.RoomID conn) (Connection.UserID conn)
              :: match db_err2 e with
                 | None => [UPDATE_users_online (Connection.UserID conn)]
                 | Some _ => []
                 end)
             [])) /\
     (WSMessage.Type_ m = "leave" ->
        readPump_iter e conn r s = pair Continue <$> handleLeaveRoom e conn m s /\
        (forall data,
           hub_wf s ->
           json_Marshal_WSMessage
             (envelope "leave" (Connection.Username conn ++ " left the room") ∅)
             = Some data ->
           delivered data
             match db_err e with
             | None => [DELETE_FROM_room_members (Connection.RoomID conn)
                          (Connection.UserID conn)]
             | Some _ => []
             end
             [])) /\
     (WSMessage.Type_ m = "typing" ->
        readPump_iter e conn r s = pair Continue <$> handleTyping e conn m s /\
        (forall s', handleTyping e conn m s = Some s' ->
                    db s' = db s /\ published s' = published s) /\
        (forall data,
           hub_wf s ->
           json_Marshal_WSMessage (envelope "typing" (WSMessage.Content m) ∅)
             = Some data ->
           delivered data [] []))) /\
  (hub_wf s ->
   exists l s',
     readPump_iter e conn r s = Some (l, s') /\ hub_wf s' /\
     (l = Break <-> exists unexpected err, r = ReadError unexpected err)).
Proof.
  split; [|split].
  - intros message -> Hu. simpl. by rewrite Hu.
  - intros message m -> Hu envelope delivered. subst envelope delivered.
    simpl. rewrite Hu. unfold handleMessage.
    split; [|split; [|split; [|split]]].
    + intros Hn. repeat (destruct (decide _) as [E|_];
        [exfalso; apply Hn; rewrite E; set_solver|]). done.
    + intros E. rewrite E. simpl. split; [|split].
      * by destruct (handleChatMessage e conn m s).
      * intros err He. unfold handleChatMessage. by rewrite He.
      * intros data Hwf Hdb Hm.
        destruct (handleChatMessage_delivers e conn m data s Hwf Hdb Hm)
          as (s' & Hh & Hd & Hf & Hp).
        exists s'. by rewrite Hh.
    + intros E. rewrite E. simpl. split; [|split].
      * by destruct (handleJoinRoom e conn m s).
      * intros err He. unfold handleJoinRoom. by rewrite He.
      * intros data Hwf Hdb Hm.
        destruct (handleJoinRoom_delivers e conn m data s Hwf Hdb Hm)
          as (s' & Hh & Hd & Hf & Hp).
        exists s'. rewrite Hh, Hp, app_nil_r. done.
    + intros E. rewrite E. simpl. split.
      * by destruct (handleLeaveRoom e conn m s).
      * intros data Hwf Hm.
        destruct (handleLeaveRoom_delivers e conn m data s Hwf Hm)
          as (s' & Hh & Hd & Hf & Hp).
        exists s'. rewrite Hh, Hp, app_nil_r. done.
    + intros E. rewrite E. simpl. split; [|split].
      * by destruct (handleTyping e conn m s).
      * intros s' Hs'. unfold handleTyping in Hs'.
        by destruct (broadcastToRoom_frame _ _ _ _ Hs') as (_ & _ & ? & ?).
      * intros data Hwf Hm.
        destruct (handleTyping_delivers e conn m data s Hwf Hm)
          as (s' & Hh & Hd & Hf & Hp).
        exists s'. rewrite Hh, Hd, Hp, !app_nil_r. done.
  - intros Hwf. destruct (readPump_iter_wf e conn r s Hwf) as (l & s' & Hr & Hwf').
    exists l, s'. split; [exact Hr|]. split; [exact Hwf'|].
    destruct r as [unexpected err|message]; simpl in Hr.
    + injection Hr as <- _. split; [eauto|done].
    + split; [|by intros (? & ? & ?)]. intros ->.
      destruct (json_Unmarshal_WSMessage message) as [m|]; [|done].
      by destruct (handleMessage e conn m s).
Qed.

End Properties.

(** * More properties *)

Section MoreProperties.
Context `{JSON}.

(** ** Unregister *)

(** X1: in a well-formed registry, [Unregister] of a registered connection
    returns, deletes its entry, closes its channel with the queued
    messages left in place, and touches nothing else; the registry stays
    well-formed, and a second [Unregister] of the same connection changes
    nothing. *)
Theorem Unregister_closes_once s k conn :
  hub_wf s -> Connections s !! k = Some conn ->
  exists ch s',
    heap s !! Connection.Send conn = Some ch /\
    Run_step (Unregister conn) s = Some s' /\
    Connections s' = delete k (Connections s) /\
    heap s' = <[Connection.Send conn := shut ch]> (heap s) /\
    published s' = published s /\ db s' = db s /\ log s' = log s /\
    hub_wf s' /\
    Run_step (Unregister conn) s' = Some s'.
Proof.
  intros Hwf Hk. pose proof Hwf as [Hent Hinj].
  destruct (Hent _ _ Hk) as (Hid & ch & Hh & Hc).
  exists ch. eexists. split; [exact Hh|].
  simpl. rewrite Hid, Hk, Hh. unfold close. rewrite Hc.
  split; [reflexivity|]. simpl. repeat (split; [reflexivity|]).
  split.
  - apply hub_wf_drop; [done|]. intros k' c' Hk' E. by eapply Hinj.
  - by rewrite lookup_delete_eq.
Qed.

(** X2: in a well-formed registry, when a room broadcast has dropped a
    member whose queue was full, the [Unregister] that its read pump sends
    on exit changes nothing: the channel is not closed a second time. *)
Theorem Unregister_after_drop_is_noop roomID msg data s k conn ch :
  hub_wf s -> json_Marshal_WSMessage msg = Some data ->
  Connections s !! k = Some conn -> Connection.RoomID conn = roomID ->
  heap s !! Connection.Send conn = Some ch -> ~ length (buf ch) < cap ch ->
  exists s',
    broadcastToRoom roomID msg s = Some s' /\
    heap s' !! Connection.Send conn = Some (shut ch) /\
    Run_step (Unregister conn) s' = Some s'.
Proof.
  intros Hwf Hm Hk Hroom Hh Hfull.
  destruct (broadcastToRoom_wf roomID msg data s Hwf Hm) as (s' & Hb & _ & Hf & _).
  exists s'. split; [exact Hb|].
  destruct (Hf k conn Hk) as (ch' & Hh' & _ & _ & HB & _).
  assert (ch' = ch) as -> by congruence.
  destruct (HB Hroom Hfull) as [Hshut Hgone]. split; [exact Hshut|].
  destruct Hwf as [Hent _]. destruct (Hent _ _ Hk) as (Hid & _).
  simpl. by rewrite Hid, Hgone.
Qed.

(** ** The broadcast case of Hub.Run *)

(** X3: in a well-formed registry, the [Broadcast] case of [Hub.Run]
    returns and reaches every registered connection, whatever its room: the
    message is queued where a slot is free, and a connection whose queue is
    full is closed and deleted. *)
Theorem Hub_Broadcast_reaches_every_room message s :
  hub_wf s ->
  exists s',
    Run_step (Broadcast message) s = Some s' /\ hub_wf s' /\
    forall k c ch,
      Connections s !! k = Some c -> heap s !! Connection.Send c = Some ch ->
      (length (buf ch) < cap ch ->
         heap s' !! Connection.Send c = Some (pushed ch message) /\
         Connections s' !! k = Some c) /\
      (~ length (buf ch) < cap ch ->
         heap s' !! Connection.Send c = Some (shut ch) /\
         Connections s' !! k = None).
Proof.
  intros Hwf. simpl. unfold range_Connections.
  destruct (range_guarded_wf (fun _ => True) message
              (map_to_list (Connections s)).*1
              (NoDup_fst_map_to_list _) s Hwf) as (s' & Hr & Hwf' & Heff).
  exists s'. split; [rewrite <- Hr; reflexivity|]. split; [exact Hwf'|].
  intros k c ch Hk Hh. destruct (Heff k c Hk) as (ch' & Hh' & _ & HA & HB & _).
  assert (ch' = ch) as -> by congruence.
  pose proof (keys_of_Connections _ _ _ Hk) as Hin.
  split; [by apply HA|by apply HB].
Qed.

(** ** Runs *)

(** X4: a run of actions from a well-formed registry ends in a well-formed
    registry, provided the hub is only sent new connections to register
    and connections with a channel of their own to unregister. *)
Theorem run_keeps_hub_wf actions : forall s s',
  hub_wf s -> disciplined_run actions s -> run actions s = Some s' -> hub_wf s'.
Proof.
  induction actions as [|a actions IH]; intros s s' Hwf Hd Hrun; simpl in *.
  - by injection Hrun as <-.
  - destruct Hd as [Hd Hrest]. destruct (step a s) as [s1|] eqn:Hs; [|done].
    eapply IH; [|exact Hrest|exact Hrun]. by eapply step_preserves_hub_wf.
Qed.

(** X5: in a well-formed registry, envelopes broadcast one after the other
    to the room of a registered connection are queued for it in that
    order, behind what was queued, as long as they fit in its channel; the
    connection stays registered. *)
Theorem broadcasts_queue_in_order msgs datas : forall s k c ch,
  hub_wf s -> Connections s !! k = Some c ->
  heap s !! Connection.Send c = Some ch ->
  Forall2 (fun msg data => json_Marshal_WSMessage msg = Some data) msgs datas ->
  length (buf ch) + length datas <= cap ch ->
  exists s',
    run_ops (Op_broadcastToRoom (Connection.RoomID c) <$> msgs) s = Some s' /\
    heap s' !! Connection.Send c = Some (mkChan (cap ch) (buf ch ++ datas)%list false) /\
    Connections s' !! k = Some c /\ hub_wf s'.
Proof.
  intros s k c ch Hwf Hk Hh HF. revert s ch Hwf Hk Hh.
  induction HF as [|msg data msgs datas Hm HF IH]; intros s ch Hwf Hk Hh Hlen.
  - exists s. split; [done|]. rewrite app_nil_r.
    destruct Hwf as [Hent Hinj]. destruct (Hent _ _ Hk) as (_ & ch' & Hh' & Hc).
    assert (ch' = ch) as -> by congruence.
    split; [|done]. rewrite Hh. f_equal. destruct ch; simpl in *. by subst.
  - simpl in Hlen.
    destruct (broadcastToRoom_wf (Connection.RoomID c) msg data s Hwf Hm)
      as (s1 & Hb & Hwf1 & Hf & _).
    destruct (Hf k c Hk) as (ch' & Hh' & _ & HA & _ & _).
    assert (ch' = ch) as -> by congruence.
    destruct (HA eq_refl) as [Hh1 Hk1]; [lia|].
    destruct (IH s1 (pushed ch data) Hwf1 Hk1 Hh1) as (s' & Hrun & Hh2 & Hk2 & Hwf2).
    { simpl. rewrite length_app. simpl. lia. }
    exists s'. split; [simpl; by rewrite Hb|]. split; [|done].
    rewrite Hh2. simpl. by rewrite <- app_assoc.
Qed.

(** ** The writer pump *)

Lemma writePump_drains evs : forall conn s ch,
  heap s !! Connection.Send conn = Some ch ->
  evs = replicate (length (buf ch)) (Send_ready false false) ->
  writePump evs conn s =
    Some (TextMessage <$> buf ch, false,
          set_heap (<[Connection.Send conn := mkChan (cap ch) [] (closed ch)]> (heap s)) s).
Proof.
  induction evs as [|ev evs IH]; intros conn s ch Hh Hevs.
  - destruct (buf ch) as [|v rest] eqn:Hbuf; [|discriminate]. simpl.
    do 3 f_equal. destruct s as [cs hp pb dbs lg]; simpl in *. unfold set_heap; simpl.
    f_equal. symmetry. apply insert_id. rewrite Hh. f_equal.
    destruct ch; simpl in *. by subst.
  - destruct (buf ch) as [|v rest] eqn:Hbuf; [discriminate|].
    simpl in Hevs. injection Hevs as -> Hevs. simpl.
    rewrite Hh. unfold receive. rewrite Hbuf.
    set (s1 := set_heap _ s).
    rewrite (IH conn s1 (mkChan (cap ch) rest (closed ch))).
    + simpl. unfold s1, set_heap. simpl. by rewrite insert_insert_eq.
    + unfold s1. simpl. apply lookup_insert_eq.
    + done.
Qed.

Lemma writePump_one_more n : forall conn s ch,
  heap s !! Connection.Send conn = Some ch -> n = length (buf ch) ->
  writePump (replicate n (Send_ready false false) ++ [Send_ready false false])%list
    conn s =
  if closed ch
  then Some (((TextMessage <$> buf ch) ++ [CloseMessage])%list, true,
             set_heap (<[Connection.Send conn := mkChan (cap ch) [] (closed ch)]>
                         (heap s)) s)
  else None.
Proof.
  induction n as [|n IH]; intros conn s ch Hh Hn.
  - destruct (buf ch) as [|v rest] eqn:Hbuf; [|discriminate]. simpl.
    rewrite Hh. unfold receive. rewrite Hbuf.
    destruct (closed ch) eqn:Hc; [|done]. simpl. do 2 f_equal.
    destruct s as [cs hp pb dbs lg]; simpl in *. unfold set_heap; simpl.
    f_equal. symmetry. apply insert_id. rewrite Hh. f_equal.
    destruct ch; simpl in *. by subst.
  - destruct (buf ch) as [|v rest] eqn:Hbuf; [discriminate|].
    simpl in Hn. injection Hn as Hn. simpl.
    rewrite Hh. unfold receive. rewrite Hbuf.
    set (s1 := set_heap _ s).
    rewrite (IH conn s1 (mkChan (cap ch) rest (closed ch))).
    + simpl. destruct (closed ch); [|done]. simpl.
      unfold s1, set_heap. simpl. by rewrite insert_insert_eq.
    + unfold s1. simpl. apply lookup_insert_eq.
    + done.
Qed.

(** X6: over a socket that takes every write, the writer pump writes the
    queued messages oldest first and empties the queue; when the channel
    has been closed, the pump writes what is still queued, then the close
    frame, and returns; when it is open, the pump then waits. *)
Theorem writePump_writes_the_queue_in_order conn s ch :
  heap s !! Connection.Send conn = Some ch ->
  let emptied :=
    set_heap (<[Connection.Send conn := mkChan (cap ch) [] (closed ch)]> (heap s)) s in
  writePump (replicate (length (buf ch)) (Send_ready false false)) conn s
    = Some (TextMessage <$> buf ch, false, emptied) /\
  (closed ch = true ->
   writePump (replicate (length (buf ch)) (Send_ready false false)
                ++ [Send_ready false false])%list conn s
     = Some (((TextMessage <$> buf ch) ++ [CloseMessage])%list, true, emptied)) /\
  (closed ch = false ->
   writePump (replicate (length (buf ch)) (Send_ready false false)
                ++ [Send_ready false false])%list conn s = None).
Proof.
  intros Hh emptied.
  split; [by apply writePump_drains|].
  rewrite (writePump_one_more _ conn s ch Hh eq_refl). subst emptied.
  destruct (closed ch); split; intros Hc; first [done|discriminate].
Qed.

(** X7: in a well-formed registry, a member of the room whose queue is
    full when a broadcast drops it is written its backlog and a close
    frame by its writer pump, and never the envelope of that broadcast. *)
Theorem dropped_member_gets_backlog_then_close roomID msg data s k conn ch :
  hub_wf s -> json_Marshal_WSMessage msg = Some data ->
  Connections s !! k = Some conn -> Connection.RoomID conn = roomID ->
  heap s !! Connection.Send conn = Some ch -> ~ length (buf ch) < cap ch ->
  exists s' s'',
    broadcastToRoom roomID msg s = Some s' /\
    writePump (replicate (length (buf ch)) (Send_ready false false)
                 ++ [Send_ready false false])%list conn s'
      = Some (((TextMessage <$> buf ch) ++ [CloseMessage])%list, true, s'').
Proof.
  intros Hwf Hm Hk Hroom Hh Hfull.
  destruct (broadcastToRoom_wf roomID msg data s Hwf Hm) as (s' & Hb & _ & Hf & _).
  destruct (Hf k conn Hk) as (ch' & Hh' & _ & _ & HB & _).
  assert (ch' = ch) as -> by congruence.
  destruct (HB Hroom Hfull) as [Hshut _].
  exists s'. eexists. split; [exact Hb|].
  exact (writePump_one_more _ conn s' (shut ch) Hshut eq_refl).
Qed.

End MoreProperties.

Section MoreHandlers.
Context `{JSON}.

(** ** Frame handlers *)

Lemma broadcastToRoom_other_rooms roomID msg s s' k c ch :
  hub_wf s -> broadcastToRoom roomID msg s = Some s' ->
  Connections s !! k = Some c -> Connection.RoomID c <> roomID ->
  heap s !! Connection.Send c = Some ch ->
  heap s' !! Connection.Send c = Some ch /\ Connections s' !! k = Some c.
Proof.
  intros Hwf Hb Hk Hne Hh.
  destruct (json_Marshal_WSMessage msg) as [data|] eqn:Hm.
  - destruct (broadcastToRoom_wf roomID msg data s Hwf Hm) as (s1 & Hb1 & _ & Hf & _).
    assert (s1 = s') as -> by congruence.
    destruct (Hf k c Hk) as (ch' & Hh' & _ & _ & _ & HC).
    assert (ch' = ch) as -> by congruence. by apply HC.
  - unfold broadcastToRoom in Hb. rewrite Hm in Hb. by injection Hb as <-.
Qed.

(** X8: when Redis refuses the publish, [handleChatMessage] still stores
    the row and broadcasts the envelope to the room; nothing is published
    and the failure is logged. *)
Theorem handleChatMessage_survives_Redis_failure e conn msg data err s :
  let envelope :=
    WSMessage.mk "message" (Connection.UserID conn) (Connection.Username conn)
      (Connection.RoomID conn) (WSMessage.Content msg) (uuid_New e) (time_Now e)
      (WSMessage.Metadata msg) in
  hub_wf s -> db_err e = None -> redis_err e = Some err ->
  json_Marshal_WSMessage envelope = Some data ->
  exists s',
    handleChatMessage e conn msg s = Some s' /\ hub_wf s' /\
    room_fanout (Connection.RoomID conn) data s s' /\
    published s' = published s /\
    db s' = (db s ++ [INSERT_INTO_messages (uuid_New e) (Connection.UserID conn)
                        (Connection.Username conn) (Connection.RoomID conn)
                        (WSMessage.Content msg) "text" (time_Now e)
                        (WSMessage.Metadata msg)])%list /\
    log s' = (log s ++ [("Error publishing to Redis: " ++ err)%string])%list.
Proof.
  intros envelope Hwf Hdb Hredis Hm. unfold handleChatMessage. rewrite Hdb.
  set (s1 := db_Exec _ s).
  assert (Hwf1 : hub_wf s1) by exact Hwf.
  destruct (broadcastToRoom_wf (Connection.RoomID conn) envelope data s1 Hwf1 Hm)
    as (s2 & Hb & Hwf2 & Hf & Hp & Hd & Hl).
  fold envelope. rewrite Hb. eexists. split; [reflexivity|].
  unfold publishToRedis, redis_Publish. rewrite Hm, Hredis. simpl.
  split; [exact Hwf2|]. split; [exact Hf|]. by rewrite Hp, Hd, Hl.
Qed.

(** X9: [handleJoinRoom]. When the INSERT fails nothing else happens: no
    status update, no broadcast. When it succeeds in a well-formed
    registry, the membership row is stored, the status update is stored if
    it succeeds, the room gets an envelope of kind "join", and nothing is
    published on the bus. *)
Theorem handleJoinRoom_effects e conn msg s :
  (forall err, db_err e = Some err ->
     handleJoinRoom e conn msg s
       = Some (log_Printf ("Error joining room: " ++ err) s)) /\
  (forall data,
     hub_wf s -> db_err e = None ->
     json_Marshal_WSMessage
       (WSMessage.mk "join" (Connection.UserID conn) (Connection.Username conn)
          (Connection.RoomID conn) (Connection.Username conn ++ " joined the room")
          (uuid_New e) (time_Now e) ∅) = Some data ->
     exists s',
       handleJoinRoom e conn msg s = Some s' /\ hub_wf s' /\
       published s' = published s /\
       db s' = (db s
                ++ INSERT_INTO_room_members (Connection.RoomID conn)
                     (Connection.UserID conn)
                   :: match db_err2 e with
                      | None => [UPDATE_users_online (Connection.UserID conn)]
                      | Some _ => []
                      end)%list /\
       room_fanout (Connection.RoomID conn) data s s').
Proof.
  split.
  - intros err He. unfold handleJoinRoom. by rewrite He.
  - intros data Hwf Hdb Hm. unfold handleJoinRoom. rewrite Hdb.
    match goal with |- context [broadcastToRoom ?r ?m ?s2] =>
      assert (Hwf2 : hub_wf s2) by (destruct (db_err2 e); exact Hwf);
      destruct (broadcastToRoom_wf r m data s2 Hwf2 Hm)
        as (s' & Hb & Hwf' & Hf & Hp & Hd & _);
      assert (Hheap : heap s2 = heap s) by (by destruct (db_err2 e));
      assert (Hconn : Connections s2 = Connections s) by (by destruct (db_err2 e));
      assert (Hpub : published s2 = published s) by (by destruct (db_err2 e));
      assert (Hdb2 : db s2 = (db s
                ++ INSERT_INTO_room_members (Connection.RoomID conn)
                     (Connection.UserID conn)
                   :: match db_err2 e with
                      | None => [UPDATE_users_online (Connection.UserID conn)]
                      | Some _ => []
                      end)%list)
        by (destruct (db_err2 e); simpl; [done|by rewrite <- app_assoc])
    end.
    exists s'. split; [exact Hb|]. split; [exact Hwf'|].
    split; [by rewrite Hp|]. split; [by rewrite Hd|].
    intros k c Hk. rewrite <- Hconn in Hk.
    destruct (Hf k c Hk) as (ch & Hh' & Hrest). exists ch.
    rewrite <- Hheap. by split.
Qed.

(** X10: [handleLeaveRoom] broadcasts the envelope of kind "leave" to the
    room whether or not the DELETE succeeded, stores the DELETE only when
    it succeeded, and publishes nothing on the bus. *)
Theorem handleLeaveRoom_broadcasts_anyway e conn msg data s :
  hub_wf s ->
  json_Marshal_WSMessage
    (WSMessage.mk "leave" (Connection.UserID conn) (Connection.Username conn)
       (Connection.RoomID conn) (Connection.Username conn ++ " left the room")
       (uuid_New e) (time_Now e) ∅) = Some data ->
  exists s',
    handleLeaveRoom e conn msg s = Some s' /\ hub_wf s' /\
    room_fanout (Connection.RoomID conn) data s s' /\
    published s' = published s /\
    db s' = (db s ++ match db_err e with
                     | None => [DELETE_FROM_room_members (Connection.RoomID conn)
                                  (Connection.UserID conn)]
                     | Some _ => []
                     end)%list.
Proof.
  intros Hwf Hm. unfold handleLeaveRoom.
  match goal with |- context [broadcastToRoom ?r ?m ?s1] =>
    assert (Hwf1 : hub_wf s1) by (destruct (db_err e); exact Hwf);
    destruct (broadcastToRoom_wf r m data s1 Hwf1 Hm)
      as (s' & Hb & Hwf' & Hf & Hp & Hd & _);
    assert (Hheap : heap s1 = heap s) by (by destruct (db_err e));
    assert (Hconn : Connections s1 = Connections s) by (by destruct (db_err e));
    assert (Hpub : published s1 = published s) by (by destruct (db_err e));
    assert (Hdb1 : db s1 = (db s ++ match db_err e with
                     | None => [DELETE_FROM_room_members (Connection.RoomID conn)
                                  (Connection.UserID conn)]
                     | Some _ => []
                     end)%list)
      by (destruct (db_err e); simpl; [by rewrite app_nil_r|done])
  end.
  exists s'. split; [exact Hb|]. split; [exact Hwf'|].
  split; [|split; [by rewrite Hp|by rewrite Hd]].
  intros k c Hk. rewrite <- Hconn in Hk.
  destruct (Hf k c Hk) as (ch & Hh' & Hrest). exists ch.
  rewrite <- Hheap. by split.
Qed.

Lemma handleMessage_other_rooms e conn m s s' k c ch :
  hub_wf s -> handleMessage e conn m s = Some s' ->
  Connections s !! k = Some c -> Connection.RoomID c <> Connection.RoomID conn ->
  heap s !! Connection.Send c = Some ch ->
  heap s' !! Connection.Send c = Some ch /\ Connections s' !! k = Some c.
Proof.
  intros Hwf Hm Hk Hne Hh. unfold handleMessage in Hm.
  destruct (decide _); [|destruct (decide _); [|destruct (decide _);
    [|destruct (decide _)]]].
  - unfold handleChatMessage in Hm. destruct (db_err e).
    { by injection Hm as <-. }
    match type of Hm with context [broadcastToRoom ?r ?m ?s1] =>
      destruct (broadcastToRoom r m s1) as [s2|] eqn:Hb; [|done];
      destruct (broadcastToRoom_other_rooms r m s1 s2 k c ch Hwf Hb Hk Hne Hh)
        as [Hh2 Hk2] end.
    injection Hm as <-. unfold publishToRedis, redis_Publish.
    destruct (json_Marshal_WSMessage _); [destruct (redis_err e)|]; done.
  - unfold handleJoinRoom in Hm. destruct (db_err e).
    { by injection Hm as <-. }
    eapply broadcastToRoom_other_rooms; [| exact Hm | | exact Hne |];
      by destruct (db_err2 e).
  - unfold handleLeaveRoom in Hm.
    eapply broadcastToRoom_other_rooms; [| exact Hm | | exact Hne |];
      by destruct (db_err e).
  - unfold handleTyping in Hm. by eapply broadcastToRoom_other_rooms.
  - by injection Hm as <-.
Qed.

(** X11: in a well-formed registry, whatever frame a connection's read
    pump takes, the connections registered in other rooms keep their
    entries and their channels exactly as they were. *)
Theorem frames_stay_in_their_room e conn r s l s' k c ch :
  hub_wf s -> readPump_iter e conn r s = Some (l, s') ->
  Connections s !! k = Some c -> Connection.RoomID c <> Connection.RoomID conn ->
  heap s !! Connection.Send c = Some ch ->
  heap s' !! Connection.Send c = Some ch /\ Connections s' !! k = Some c.
Proof.
  intros Hwf Hr Hk Hne Hh. destruct r as [unexpected err|message]; simpl in Hr.
  - injection Hr as _ <-. by destruct unexpected.
  - destruct (json_Unmarshal_WSMessage message) as [m|].
    + destruct (handleMessage e conn m s) as [s1|] eqn:Hm; [|done].
      injection Hr as _ <-. by eapply handleMessage_other_rooms.
    + by injection Hr as _ <-.
Qed.

(** X12: a frame of any kind but "message" publishes nothing on the bus:
    join, leave and typing notifications stay in the process that received
    the frame. *)
Theorem notifications_are_local_only e conn message m s l s' :
  json_Unmarshal_WSMessage message = Some m ->
  WSMessage.Type_ m <> "message" ->
  readPump_iter e conn (ReadFrame message) s = Some (l, s') ->
  published s' = published s.
Proof.
  intros Hu Hkind Hr. simpl in Hr. rewrite Hu in Hr.
  destruct (handleMessage e conn m s) as [s1|] eqn:Hm; [|done].
  injection Hr as _ <-. unfold handleMessage in Hm.
  destruct (decide _); [done|]. destruct (decide _); [|destruct (decide _);
    [|destruct (decide _)]].
  - unfold handleJoinRoom in Hm. destruct (db_err e).
    { by injection Hm as <-. }
    destruct (broadcastToRoom_frame _ _ _ _ Hm) as (_ & _ & -> & _).
    by destruct (db_err2 e).
  - unfold handleLeaveRoom in Hm.
    destruct (broadcastToRoom_frame _ _ _ _ Hm) as (_ & _ & -> & _).
    by destruct (db_err e).
  - unfold handleTyping in Hm.
    by destruct (broadcastToRoom_frame _ _ _ _ Hm) as (_ & _ & -> & _).
  - by injection Hm as <-.
Qed.

End MoreHandlers.

Section MoreGateway.
Context `{JSON}.

(** ** The two SendMessage handlers *)


(** ** The streaming RPC *)

Lemma StreamMessages_loop_outputs req_RoomId evs : forall s,
  Forall stream_runs_on evs ->
  exists s',
    StreamMessages_loop req_RoomId evs s
      = (stream_outputs req_RoomId evs, None, s') /\
    Connections s' = Connections s /\ heap s' = heap s /\
    published s' = published s /\ db s' = db s.
Proof.
  induction evs as [|ev evs IH]; intros s Hall.
  - by exists s.
  - apply Forall_cons in Hall as [Hev Hall].
    destruct ev as [|e [err|payload] send_err]; [done| |].
    + simpl. destruct (IH (log_Printf ("Error receiving message: " ++ err) s) Hall)
        as (s' & -> & ?). by exists s'.
    + simpl in Hev. subst send_err. simpl.
      destruct (IH s Hall) as (s' & -> & ?). by exists s'.
Qed.

(** X14: while the context is not done and every send succeeds,
    [StreamMessages] sends the initial system message and then one message
    per payload received, in order, each with the requested room, the
    sender "user"/"User", the kind "text" and the raw payload as content;
    receive errors send nothing and do not end the call; the registry, the
    bus and the database are not touched. *)
Theorem StreamMessages_relays_every_payload e req_RoomId evs s :
  Forall stream_runs_on evs ->
  exists s',
    StreamMessages e req_RoomId false evs s
      = (StreamMessages_initial e req_RoomId :: stream_outputs req_RoomId evs,
         None, s') /\
    Connections s' = Connections s /\ heap s' = heap s /\
    published s' = published s /\ db s' = db s.
Proof.
  intros Hall. unfold StreamMessages.
  destruct (StreamMessages_loop_outputs req_RoomId evs s Hall) as (s' & -> & ?).
  by exists s'.
Qed.

(** X15: [StreamMessages] ends at the first turn that finds the context
    done, with the status of a cancelled call, or at the first failed
    send, with the status Internal; what was sent before stays sent and no
    later payload is relayed. *)
Theorem StreamMessages_ends_on_cancel_or_send_failure e req_RoomId evs ev rest s :
  Forall stream_runs_on evs ->
  (ev = Ctx_Done \/ exists e' payload, ev = Default_case e' (RecvMessage payload) true) ->
  exists s',
    StreamMessages e req_RoomId false (evs ++ ev :: rest)%list s
      = (StreamMessages_initial e req_RoomId :: stream_outputs req_RoomId evs,
         Some (match ev with
               | Ctx_Done => Canceled
               | _ => Internal "Failed to send message"
               end), s').
Proof.
  intros Hall Hev. unfold StreamMessages.
  assert (Hloop : forall s0, exists s',
            StreamMessages_loop req_RoomId (evs ++ ev :: rest)%list s0
            = (stream_outputs req_RoomId evs,
               Some (match ev with
                     | Ctx_Done => Canceled
                     | _ => Internal "Failed to send message"
                     end), s')).
  { induction evs as [|ev0 evs IH]; intros s0.
    - destruct Hev as [->|(e' & payload & ->)]; by exists s0.
    - apply Forall_cons in Hall as [Hev0 Hall].
      destruct ev0 as [|e0 [err|payload] send_err]; [done| |].
      + simpl. destruct (IH Hall (log_Printf ("Error receiving message: " ++ err) s0))
          as (s' & -> ). by exists s'.
      + simpl in Hev0. subst send_err. simpl.
        destruct (IH Hall s0) as (s' & ->). by exists s'. }
  destruct (Hloop s) as (s' & ->). by exists s'.
Qed.

(** ** Accepting a socket *)

(** X16: [HandleWebSocket] makes a connection only when the three query
    parameters are non-empty and the upgrade succeeds; the connection
    carries those parameters and the id drawn for it, and the event sent
    to the hub registers that very connection. When the registry is
    well-formed and the channel address is free, the registry with the new
    channel is well-formed, the connection is new to it, and once the hub
    has registered it the registry is well-formed again with the
    connection filed under its id and an empty queue of 256 slots. *)
Theorem accepted_socket_joins_the_registry e userID username roomID upgrade_err addr s
    conn ev welcome s' :
  HandleWebSocket_request e userID username roomID upgrade_err addr s
    = (Accepted conn ev welcome, s') ->
  userID <> "" /\ username <> "" /\ roomID <> "" /\ upgrade_err = None /\
  conn = Connection.mk (uuid_New e) userID username roomID addr /\
  ev = Register conn /\
  WSMessage.Type_ welcome = "system" /\ WSMessage.RoomID welcome = roomID /\
  (hub_wf s -> heap s !! addr = None ->
   hub_wf s' /\ fresh conn s' /\
   exists s'',
     Run_step ev s' = Some s'' /\ hub_wf s'' /\
     Connections s'' !! Connection.ID conn = Some conn /\
     heap s'' !! Connection.Send conn = Some (make_chan Send_capacity)).
Proof.
  unfold HandleWebSocket_request. destruct (decide _) as [|Hne]; [done|].
  destruct upgrade_err as [err|]; [done|]. simpl. intros [= <- <- <- <-].
  repeat (split; [tauto || done|]).
  intros Hwf Hfree.
  pose proof (hub_wf_NewConnection (uuid_New e) userID username roomID addr s
                Hwf Hfree) as Hnew. simpl in Hnew.
  destruct Hnew as (Hwf' & Hu & Hh).
  split; [exact Hwf'|]. split.
  { split; [|exact Hu]. eexists. split; [exact Hh|done]. }
  eexists. split; [reflexivity|]. split; [|split].
  - eapply hub_wf_Register; [exact Hwf'|exact Hh|done|exact Hu].
  - simpl. apply lookup_insert_eq.
  - exact Hh.
Qed.

(** ** Room membership over gRPC *)

(** X17: when the database and Redis accept every call, [JoinRoom] puts
    the user in the online set of the room and stores the membership row
    and the status update, and a following [LeaveRoom] takes the user out
    of the set, stores the DELETE, and leaves the other members of the set
    and every other set as they were; both answer success. *)
Theorem JoinRoom_then_LeaveRoom e e' room user s sets :
  db_err e = None -> db_err2 e = None -> redis_err e = None ->
  db_err e' = None -> redis_err e' = None ->
  let '(r1, st1, s1, sets1) := JoinRoom e room user s sets in
  let '(r2, st2, s2, sets2) := LeaveRoom e' room user s1 sets1 in
  room_Success r1 = true /\ st1 = None /\ room_Success r2 = true /\ st2 = None /\
  user ∈ SMembers (room_users_key room) sets1 /\
  SMembers (room_users_key room) sets2
    = SMembers (room_users_key room) sets ∖ {[user]} /\
  (forall key, key <> room_users_key room ->
     SMembers key sets2 = SMembers key sets) /\
  db s2 = (db s ++ [INSERT_INTO_room_members room user;
                    UPDATE_users_online user;
                    DELETE_FROM_room_members room user])%list.
Proof.
  intros Hd1 Hd2 Hr1 Hd1' Hr1'. unfold JoinRoom, LeaveRoom.
  rewrite Hd1, Hd2, Hr1, Hd1', Hr1'. simpl.
  repeat (split; [done|]).
  assert (Hadd : SMembers (room_users_key room) (SAdd (room_users_key room) user sets)
                 = {[user]} ∪ SMembers (room_users_key room) sets).
  { unfold SMembers at 1, SAdd. by rewrite lookup_insert_eq. }
  split; [rewrite Hadd; set_solver|].
  split; [|split].
  - unfold SRem. rewrite Hadd. destruct (decide _) as [E|E].
    + unfold SMembers at 1. rewrite lookup_delete_eq. simpl.
      rewrite <- E. set_solver.
    + unfold SMembers at 1. rewrite lookup_insert_eq. simpl. set_solver.
  - intros key Hkey. unfold SRem. destruct (decide _).
    + unfold SMembers, SAdd. rewrite lookup_delete_ne by done.
      by rewrite lookup_insert_ne.
    + unfold SMembers, SAdd. rewrite lookup_insert_ne by done.
      by rewrite lookup_insert_ne.
  - by rewrite <- !app_assoc.
Qed.

(** X18: [GetOnlineUsers] reads the ids from the online set of the room:
    for an empty set it answers the empty list without any query; after a
    successful [JoinRoom] of a user it asks the database for a set of ids
    that contains the user. When SMEMBERS fails it falls back on the
    database query for the online members of the room. *)
Theorem GetOnlineUsers_follows_the_online_set e e' room user db_Query s sets :
  redis_err e' = None ->
  (SMembers (room_users_key room) sets = ∅ ->
   GetOnlineUsers e' room sets db_Query s = (None, inl [], s)) /\
  (db_err e = None -> redis_err e = None ->
   exists ids,
     (GetOnlineUsers e' room (JoinRoom e room user s sets).2 db_Query s).1.1
       = Some (SELECT_users_by_id ids) /\
     user ∈ ids /\ SMembers (room_users_key room) sets ⊆ ids) /\
  (forall e'' err, redis_err e'' = Some err ->
     (GetOnlineUsers e'' room sets db_Query s).1.1
       = Some (SELECT_online_members room)).
Proof.
  intros Hr'. split; [|split].
  - intros Hempty. unfold GetOnlineUsers. rewrite Hr', Hempty.
    by rewrite decide_True by (by rewrite size_empty).
  - intros Hd Hr. unfold JoinRoom. rewrite Hd, Hr. simpl.
    unfold GetOnlineUsers. rewrite Hr'.
    assert (Hadd : SMembers (room_users_key room) (SAdd (room_users_key room) user sets)
                   = {[user]} ∪ SMembers (room_users_key room) sets).
    { unfold SMembers at 1, SAdd. by rewrite lookup_insert_eq. }
    rewrite Hadd. rewrite decide_False.
    + exists ({[user]} ∪ SMembers (room_users_key room) sets).
      split; [by destruct (db_Query _)|]. split; set_solver.
    + intros Hsize. apply size_empty_inv in Hsize. set_solver.
  - intros e'' err He. unfold GetOnlineUsers. by rewrite He.
Qed.

End MoreGateway.

(** ** Message history over HTTP *)

Section MoreHistory.
Variable strconv_Atoi : string -> option Z.
Variable strconv_ParseInt : string -> option Z.

(** X19: whatever the [limit] parameter, the LIMIT of the query that
    [GetMessages] sends lies between 1 and 100; it is the parameter when
    that is a number in this range and 50 otherwise; the query is for the
    room of the request. *)
Theorem GetMessages_limit_is_clamped roomID limitStr beforeStr db_Query q :
  (GetMessages strconv_Atoi strconv_ParseInt roomID limitStr beforeStr db_Query).1
    = Some q ->
  exists before limit,
    q = SELECT_messages roomID before limit /\
    (1 <= limit <= 100)%Z /\
    (forall n, strconv_Atoi limitStr = Some n -> (1 <= n <= 100)%Z -> limit = n) /\
    ((forall n, strconv_Atoi limitStr = Some n -> ~ (1 <= n <= 100)%Z) ->
     limit = 50%Z).
Proof.
  unfold GetMessages. intros Hq.
  assert (Hlim : (1 <= effective_limit strconv_Atoi limitStr <= 100)%Z /\
     (forall n, strconv_Atoi limitStr = Some n -> (1 <= n <= 100)%Z ->
                effective_limit strconv_Atoi limitStr = n) /\
     ((forall n, strconv_Atoi limitStr = Some n -> ~ (1 <= n <= 100)%Z) ->
      effective_limit strconv_Atoi limitStr = 50%Z)).
  { unfold effective_limit. destruct (strconv_Atoi limitStr) as [n|].
    - destruct (n <=? 0)%Z eqn:E1; destruct (100 <? n)%Z eqn:E2; simpl;
        repeat split; try lia; try (intros m [= <-]; lia);
        try (intros Hn; exfalso; apply (Hn n eq_refl); lia).
    - repeat split; try lia. intros n [=]. }
  destruct (decide (beforeStr <> "")).
  - destruct (strconv_ParseInt beforeStr) as [before|]; [|done].
    simpl in Hq. injection Hq as <-. by eexists _, _.
  - simpl in Hq. injection Hq as <-. by eexists _, _.
Qed.

(** X20: with a [before] parameter, [GetMessages] never reports a failed
    query as such. When the [limit] parameter is not a number the answer
    is the 500 "Failed to get messages" even though the query succeeded;
    when it is a number, a failed query, or a bound that does not parse
    (no query being sent), leaves nil rows and the handler panics. *)
Theorem GetMessages_before_loses_the_query_error roomID limitStr beforeStr db_Query :
  beforeStr <> "" ->
  let answer :=
    (GetMessages strconv_Atoi strconv_ParseInt roomID limitStr beforeStr db_Query).2 in
  (strconv_Atoi limitStr = None -> answer = Failed 500 "Failed to get messages") /\
  (forall n, strconv_Atoi limitStr = Some n ->
     (strconv_ParseInt beforeStr = None -> answer = Handler_panics) /\
     (forall before,
        strconv_ParseInt beforeStr = Some before ->
        db_Query (SELECT_messages roomID (Some before)
                    (effective_limit strconv_Atoi limitStr)) = QueryError ->
        answer = Handler_panics)).
Proof.
  intros Hb answer. subst answer. unfold GetMessages.
  rewrite decide_True by done. split.
  - intros Ha. rewrite Ha. by destruct (strconv_ParseInt beforeStr).
  - intros n Ha. split.
    + intros Hp. by rewrite Hp, Ha.
    + intros before Hp Hq. rewrite Hp. simpl. by rewrite Ha, Hq.
Qed.

Lemma omap_id_length {A} (l : list (option A)) : length (omap id l) <= length l.
Proof. induction l as [|[a|] l IH]; csimpl; simpl; lia. Qed.

(** X21: without a [before] parameter, a failed query is answered by 500,
    and a successful one by 200 with one message per row that scans, in
    the order of the rows; a stored metadata document is never returned
    (the field is an empty map or nil); [has_more] holds exactly when the
    number of messages equals the effective limit. *)
Theorem GetMessages_lists_the_rows_that_scan roomID limitStr db_Query :
  let limit := effective_limit strconv_Atoi limitStr in
  let answer :=
    (GetMessages strconv_Atoi strconv_ParseInt roomID limitStr "" db_Query).2 in
  (db_Query (SELECT_messages roomID None limit) = QueryError ->
   answer = Failed 500 "Failed to get messages") /\
  (forall rows,
     db_Query (SELECT_messages roomID None limit) = QueryRows rows ->
     exists messages has_more,
       answer = Messages 200 messages has_more /\
       Message.ID <$> messages = row_id <$> omap id rows /\
       Message.Content <$> messages = row_content <$> omap id rows /\
       length messages <= length rows /\
       Forall (fun m => Message.Metadata m = None \/ Message.Metadata m = Some ∅)
         messages /\
       (has_more = true <-> Z.of_nat (length messages) = limit)).
Proof.
  intros limit answer. subst answer. unfold GetMessages.
  rewrite decide_False by (by intros ?). simpl. fold limit. split.
  - by intros ->.
  - intros rows ->. unfold respond_messages, scan_messages.
    eexists _, _. split; [reflexivity|].
    split; [by rewrite <- list_fmap_compose|].
    split; [by rewrite <- list_fmap_compose|].
    split; [|split].
    + rewrite length_fmap. apply omap_id_length.
    + apply Forall_fmap, Forall_forall. intros r _. simpl.
      destruct (decide _); auto.
    + apply bool_decide_eq_true.
Qed.

End MoreHistory.

(** ** The authentication middleware *)

Section MoreAuth.
Variable jwt_Parse : string -> option (gmap string claim).

Lemma substring_all (t : string) : String.substring 0 (String.length t) t = t.
Proof. induction t as [|a t IH]; simpl; [done|by rewrite IH]. Qed.

Lemma strip_Bearer_prefixed (tok : string) :
  tok <> "" -> strip_Bearer ("Bearer " ++ tok) = tok.
Proof.
  intros Hne. unfold strip_Bearer.
  destruct tok as [|a tok]; [done|].
  rewrite decide_True by (simpl; lia).
  simpl. apply substring_all with (t := String a tok).
Qed.

(** X22: the prefix "Bearer " is optional: a non-empty token sent behind
    the prefix is the token that is parsed, and when the token does not
    itself start with the prefix the request is treated exactly as if the
    token had been sent bare. *)
Theorem Bearer_prefix_is_optional (tok : string) :
  tok <> "" ->
  strip_Bearer ("Bearer " ++ tok) = tok /\
  (strip_Bearer tok = tok ->
   AuthMiddleware jwt_Parse ("Bearer " ++ tok) = AuthMiddleware jwt_Parse tok).
Proof.
  intros Hne. split; [by apply strip_Bearer_prefixed|].
  intros Hbare. unfold AuthMiddleware.
  rewrite (strip_Bearer_prefixed tok Hne), Hbare.
  destruct tok as [|a tok]; [done|]. reflexivity.
Qed.

(** X23: the middleware lets a request through exactly when the header is
    not empty and the token, without its prefix, parses as valid with
    string claims "user_id" and "username", which become the identity of
    the request; every other request is aborted with status 401. *)
Theorem AuthMiddleware_accepts_exactly_valid_tokens Authorization :
  (forall user_id username,
     AuthMiddleware jwt_Parse Authorization = Next user_id username <->
     Authorization <> "" /\
     exists claims,
       jwt_Parse (strip_Bearer Authorization) = Some claims /\
       claims !! "user_id" = Some (claim_string user_id) /\
       claims !! "username" = Some (claim_string username)) /\
  (forall status error,
     AuthMiddleware jwt_Parse Authorization = Abort status error -> status = 401).
Proof.
  unfold AuthMiddleware. split.
  - intros user_id username.
    destruct (String.eqb Authorization "") eqn:E.
    + apply String.eqb_eq in E. split; [done|]. by intros [? _].
    + apply String.eqb_neq in E.
      destruct (jwt_Parse (strip_Bearer Authorization)) as [claims|].
      2:{ split; [done|]. by intros (_ & ? & ? & _). }
      destruct (claims !! "user_id") as [[u|]|] eqn:Hu.
      2,3: split; [done|]; intros (_ & c & [= <-] & Hu' & _); congruence.
      destruct (claims !! "username") as [[n|]|] eqn:Hn.
      2,3: split; [done|]; intros (_ & c & [= <-] & _ & Hn'); congruence.
      split.
      * intros [= <- <-]. split; [done|]. by exists claims.
      * intros (_ & c & [= <-] & Hu' & Hn'). congruence.
  - intros status error.
    destruct (String.eqb Authorization ""); [by intros [= <- _]|].
    destruct (jwt_Parse _) as [claims|]; [|by intros [= <- _]].
    destruct (claims !! "user_id") as [[u|]|]; try by intros [= <- _].
    destruct (claims !! "username") as [[n|]|]; by intros [= <- _] || done.
Qed.

End MoreAuth.

(** ** Message history over gRPC *)

Section MoreHistoryRPC.
Variable strconv_Atoi : string -> option Z.
Variable strconv_ParseInt : string -> option Z.

(** X24: for a limit between 1 and 100 and no bound, the RPC
    [GetMessageHistory] and the HTTP [GetMessages] send the same query, and
    on the rows it returns they list the same messages in the same order
    with the same [has_more]; on a failed query the RPC answers Internal
    and the HTTP handler 500. *)
Theorem history_RPC_and_HTTP_agree roomID limitStr limit db_Query :
  strconv_Atoi limitStr = Some limit -> (1 <= limit <= 100)%Z ->
  let '(q, rpc) := GetMessageHistory roomID limit 0 db_Query in
  let '(q', http) :=
    GetMessages strconv_Atoi strconv_ParseInt roomID limitStr "" db_Query in
  q' = Some q /\
  match rpc, http with
  | inl (messages, HasMore), Messages 200 messages' has_more =>
      pb.Id <$> messages = Message.ID <$> messages' /\
      pb.UserId <$> messages = Message.UserID <$> messages' /\
      pb.Content <$> messages = Message.Content <$> messages' /\
      pb.Timestamp <$> messages = Message.Timestamp <$> messages' /\
      HasMore = has_more
  | inr (Internal _), Failed 500 _ => True
  | _, _ => False
  end.
Proof.
  intros Ha Hrange. unfold GetMessageHistory, GetMessages, effective_limit.
  rewrite Ha. destruct (decide (0 < 0)%Z); [lia|].
  destruct (decide ("" <> "")) as [?|_]; [done|].
  destruct (limit <=? 0)%Z eqn:E1; [lia|]. destruct (100 <? limit)%Z eqn:E2; [lia|].
  simpl.
  split; [done|].
  destruct (db_Query _) as [|rows]; [done|].
  unfold respond_messages, scan_messages.
  rewrite <- !list_fmap_compose, !length_fmap. done.
Qed.

End MoreHistoryRPC.


(** * The properties on the concrete process *)

#[local] Existing Instance Symbolic.codec.

(** Closed facts about the concrete states are computed. *)
Ltac by_compute := vm_compute; first [reflexivity | lia | discriminate | tauto].

Lemma joined_wf : hub_wf Example.joined.
Proof. apply hub_wfb_sound. by_compute. Qed.

Lemma alice_saturated_wf : hub_wf Example.alice_saturated.
Proof. apply hub_wfb_sound. by_compute. Qed.

Lemma joined_entries :
  Connections Example.joined !! "c-alice" = Some Example.alice /\
  Connections Example.joined !! "c-bob" = Some Example.bob /\
  Connections Example.joined !! "c-carol" = Some Example.carol.
Proof. split; [|split]; by_compute. Qed.

Lemma joined_channels :
  heap Example.joined !! Connection.Send Example.alice = Some (make_chan Send_capacity) /\
  heap Example.joined !! Connection.Send Example.bob = Some (make_chan Send_capacity) /\
  heap Example.joined !! Connection.Send Example.carol = Some (make_chan Send_capacity).
Proof. split; [|split]; by_compute. Qed.

Lemma make_chan_has_room : length (buf (make_chan Send_capacity)) < cap (make_chan Send_capacity).
Proof. by_compute. Qed.

(** [joined] is what three accepted sockets and their registrations make of
    a new hub. *)
Lemma joined_reachable :
  let '(c1, ev1, _, s1) :=
    HandleWebSocket (mkEnv "c-alice" 1 None None None) "u1" "alice" "R1" 1 NewHub in
  let '(c2, ev2, _, s2) :=
    HandleWebSocket (mkEnv "c-bob" 2 None None None) "u2" "bob" "R1" 2 s1 in
  let '(c3, ev3, _, s3) :=
    HandleWebSocket (mkEnv "c-carol" 3 None None None) "u3" "carol" "R2" 3 s2 in
  (c1, c2, c3) = (Example.alice, Example.bob, Example.carol) /\
  run_ops [Op_hub ev1; Op_hub ev2; Op_hub ev3] s3 = Some Example.joined.
Proof. vm_compute. split; reflexivity. Qed.

(** [alice_saturated] is reached when alice joins, sends 256 typing frames
    while her writer takes nothing from her queue, and bob joins. *)
Lemma alice_saturated_reachable :
  let '(c1, ev1, _, s1) :=
    HandleWebSocket (mkEnv "c-alice" 1 None None None) "u1" "alice" "R1" 1 NewHub in
  let '(c2, ev2, _, s2) :=
    HandleWebSocket (mkEnv "c-bob" 2 None None None) "u2" "bob" "R1" 2 s1 in
  run (Hub_receives ev1
         :: replicate 256
              (Pump_reads Example.env_m0 c1
                 (ReadFrame (Example.encoded Example.typing_start)))
         ++ [Hub_receives ev2]) s2
  = Some Example.alice_saturated.
Proof. vm_compute. reflexivity. Qed.

(** ** Witnesses *)

Lemma queue_of_heap `{JSON} r s ch : heap s !! r = Some ch -> queue r s = Some (buf ch).
Proof. intros Hr. unfold queue. by rewrite Hr. Qed.

Lemma room_fanout_queue `{JSON} roomID data s s' k c ch :
  room_fanout roomID data s s' -> Connections s !! k = Some c ->
  heap s !! Connection.Send c = Some ch -> Connection.RoomID c = roomID ->
  length (buf ch) < cap ch ->
  queue (Connection.Send c) s' = Some (buf ch ++ [data])%list.
Proof.
  intros Hf Hk Hch Hroom Hfree.
  destruct (Hf k c Hk) as (ch' & Hch' & _ & Hpush & _).
  assert (ch' = ch) as -> by congruence.
  destruct (Hpush Hroom Hfree) as [Hq _].
  unfold queue. by rewrite Hq.
Qed.

(** [broadcastToRoom_reaches_room_only] on the three connections: alice
    and bob get the envelope, carol of room "R2" gets nothing. *)
Lemma broadcastToRoom_reaches_room_only_witness :
  hub_wf Example.joined /\
  json_Marshal_WSMessage Example.hi_m1 = Some (Example.encoded Example.hi_m1) /\
  exists s',
    broadcastToRoom "R1" Example.hi_m1 Example.joined = Some s' /\
    queue 1 s' = Some [Example.encoded Example.hi_m1] /\
    queue 2 s' = Some [Example.encoded Example.hi_m1] /\
    queue 3 s' = Some [].
Proof.
  split; [exact joined_wf|]. split; [reflexivity|].
  destruct (broadcastToRoom_reaches_room_only "R1" Example.hi_m1
              (Example.encoded Example.hi_m1) Example.joined joined_wf eq_refl)
    as (s' & Hb & Heff).
  destruct joined_entries as (Ea & Eb & Ec).
  destruct joined_channels as (Ca & Cb & Cc).
  destruct (Heff _ _ _ Ea Ca) as [Ha _].
  destruct (Heff _ _ _ Eb Cb) as [Hbob _].
  destruct (Heff _ _ _ Ec Cc) as [_ Hc].
  destruct (Ha eq_refl make_chan_has_room) as [Ha' _].
  destruct (Hbob eq_refl make_chan_has_room) as [Hb' _].
  destruct Hc as [Hc' _]; [discriminate|].
  exists s'. split; [exact Hb|].
  split; [exact (queue_of_heap _ _ _ Ha')|].
  split; [exact (queue_of_heap _ _ _ Hb')|exact (queue_of_heap _ _ _ Hc')].
Defined.

Lemma alice_saturated_facts :
  Connections Example.alice_saturated !! "c-alice" = Some Example.alice /\
  heap Example.alice_saturated !! Connection.Send Example.alice
    = Some (mkChan Send_capacity (replicate 256 (Example.encoded Example.stale)) false) /\
  length (replicate 256 (Example.encoded Example.stale)) = 256.
Proof. split; [|split]; by_compute. Qed.

(** [full_queue_is_dropped] on alice's saturated queue. *)
Lemma full_queue_is_dropped_witness :
  hub_wf Example.alice_saturated /\
  Connections Example.alice_saturated !! "c-alice" = Some Example.alice /\
  exists s',
    broadcastToRoom "R1" Example.hi_m1 Example.alice_saturated = Some s' /\
    heap s' !! 1
      = Some (mkChan Send_capacity (replicate 256 (Example.encoded Example.stale)) true) /\
    Connections s' !! "c-alice" = None /\
    forall s'',
      broadcastToRoom "R1" Example.stale s' = Some s'' ->
      queue 1 s'' = Some (replicate 256 (Example.encoded Example.stale)).
Proof.
  destruct alice_saturated_facts as (Ek & Eh & El).
  split; [exact alice_saturated_wf|]. split; [exact Ek|].
  destruct (full_queue_is_dropped "R1" Example.hi_m1 (Example.encoded Example.hi_m1)
              Example.alice_saturated "c-alice" Example.alice _
              alice_saturated_wf eq_refl Ek eq_refl Eh eq_refl El)
    as (s' & Hb & Hh & Hq & Hgone & _ & Hlater).
  exists s'. split; [exact Hb|]. split; [exact Hh|].
  split; [exact Hgone|]. intros s'' Hb'.
  apply (Hlater [Op_broadcastToRoom "R1" Example.stale] s'').
  - constructor; [|constructor]. simpl. tauto.
  - simpl. destruct (broadcastToRoom "R1" Example.stale s'); [|discriminate].
    exact Hb'.
Defined.

(** [Register_last_writer_wins] when a second connection object with
    alice's id is registered. *)
Lemma Register_last_writer_wins_witness :
  hub_wf Example.joined /\
  Connections Example.joined !! Connection.ID Example.alice2 = Some Example.alice /\
  exists s',
    Run_step (Register Example.alice2) Example.joined = Some s' /\
    Connections s' !! "c-alice" = Some Example.alice2 /\
    (exists ch, heap s' !! 1 = Some ch /\ closed ch = false) /\
    forall s'',
      broadcastToRoom "R1" Example.hi_m1 s' = Some s'' ->
      queue 1 s'' = queue 1 Example.joined.
Proof.
  destruct joined_entries as (Ea & _).
  split; [exact joined_wf|]. split; [exact Ea|].
  destruct (Register_last_writer_wins Example.alice2 Example.joined)
    as (s' & Hr & Hk & Hheap & Hprev).
  exists s'. split; [exact Hr|]. split; [exact Hk|].
  destruct (Hprev Example.alice joined_wf Ea) as (Hopen & _ & Hlater);
    [discriminate|].
  split; [exact Hopen|]. intros s'' Hb.
  apply (Hlater [Op_broadcastToRoom "R1" Example.hi_m1] s'').
  - constructor; [|constructor]. simpl. tauto.
  - simpl. destruct (broadcastToRoom "R1" Example.hi_m1 s'); [|discriminate].
    exact Hb.
Defined.

(** [Register_is_always_accepted] after alice has been unregistered:
    another connection is accepted under her id. *)
Lemma Register_is_always_accepted_witness :
  exists s,
    run_ops [Op_hub (Unregister Example.alice)] Example.joined = Some s /\
    code_Register Example.alice2 s <> Some RegistryClosed /\
    exists s', Run_step (Register Example.alice2) s = Some s' /\
               Connections s' !! Connection.ID Example.alice2 = Some Example.alice2.
Proof.
  assert (Hrun : exists s,
    run_ops [Op_hub (Unregister Example.alice)] Example.joined = Some s).
  { eexists. by_compute. }
  destruct Hrun as (s & Hrun). exists s. split; [exact Hrun|].
  exact (proj2 (Register_is_always_accepted s Example.alice2)).
Defined.

(** [persistence_failure_stops_delivery] when the database refuses the
    connection. *)
Lemma persistence_failure_stops_delivery_witness :
  db_err Example.env_db_down = Some "connection refused" /\
  (exists s',
     handleChatMessage Example.env_db_down Example.alice Example.hi Example.joined
       = Some s' /\
     heap s' = heap Example.joined /\ published s' = published Example.joined) /\
  (exists resp s',
     SendMessage Example.env_db_down Example.rpc_hello Example.joined
       = (resp, Some (Internal "Failed to store message"), s') /\
     pb.Success resp = false /\ published s' = published Example.joined).
Proof.
  split; [reflexivity|].
  destruct (persistence_failure_stops_delivery Example.env_db_down Example.alice
              Example.hi Example.rpc_hello Example.joined "connection refused"
              eq_refl)
    as [(s1 & H1 & _ & Hh1 & Hp1 & _) (resp & s2 & H2 & Hs2 & _ & _ & Hp2 & _)].
  split.
  - exists s1. split; [exact H1|]. split; [exact Hh1|exact Hp1].
  - exists resp, s2. split; [exact H2|]. split; [exact Hs2|exact Hp2].
Defined.

(** [SendMessage_persists_and_publishes] for a message to room "R1". *)
Lemma SendMessage_persists_and_publishes_witness :
  db_err Example.env_ok = None /\
  exists s',
    SendMessage Example.env_ok Example.rpc_hello Example.joined
      = (pb.mkResponse true "m1" "", None, s') /\
    db s' = [INSERT_INTO_messages "m1" "u9" "zed" "R1" "hello" "text" 100 ∅] /\
    published s' =
      [("room:R1",
        Example.encoded_data (messageData.mk "m1" "u9" "zed" "R1" "hello" "text" 100 ∅))] /\
    heap s' = heap Example.joined.
Proof.
  split; [reflexivity|].
  destruct (SendMessage_persists_and_publishes Example.env_ok Example.rpc_hello
              Example.joined eq_refl) as (s' & Hs & Hdb & _ & Hh & Hpub & _).
  exists s'. split; [exact Hs|]. split; [exact Hdb|]. split; [|exact Hh].
  exact (Hpub _ eq_refl eq_refl).
Defined.

(** [readPump_dispatches_by_kind] on a chat frame of alice: the row, the
    envelope in bob's queue and on the channel of the room. *)
Lemma readPump_dispatches_by_kind_witness :
  hub_wf Example.joined /\
  json_Unmarshal_WSMessage (Example.encoded Example.hi) = Some Example.hi /\
  db_err Example.env_ok = None /\
  readPump_iter Example.env_ok Example.alice
    (ReadFrame (Example.encoded Example.hi)) Example.joined
  = pair Continue <$>
      handleChatMessage Example.env_ok Example.alice Example.hi Example.joined /\
  exists s',
    readPump_iter Example.env_ok Example.alice
      (ReadFrame (Example.encoded Example.hi)) Example.joined = Some (Continue, s') /\
    db s' = [INSERT_INTO_messages "m1" "u1" "alice" "R1" "hi" "text" 100 ∅] /\
    queue 2 s' = Some [Example.encoded Example.hi_m1] /\
    published s' = [("room:R1", Example.encoded Example.hi_m1)].
Proof.
  split; [exact joined_wf|]. split; [reflexivity|]. split; [reflexivity|].
  destruct (readPump_dispatches_by_kind Example.env_ok Example.alice
              (ReadFrame (Example.encoded Example.hi)) Example.joined)
    as (_ & Hknown & _).
  pose proof (Hknown (Example.encoded Example.hi) Example.hi eq_refl eq_refl)
    as Hkinds.
  cbv zeta in Hkinds. destruct Hkinds as (_ & Hchat & _).
  destruct (Hchat eq_refl) as (Hdispatch & _ & Hdelivered).
  split; [exact Hdispatch|].
  destruct (Hdelivered (Example.encoded Example.hi_m1) joined_wf eq_refl eq_refl)
    as (s' & Hr & Hd & Hf & Hp).
  destruct joined_entries as (_ & Eb & _). destruct joined_channels as (_ & Cb & _).
  exists s'. split; [exact Hr|]. split; [exact Hd|].
  split; [exact (room_fanout_queue _ _ _ _ _ _ _ Hf Eb Cb eq_refl make_chan_has_room)|].
  exact Hp.
Defined.

(** ** Where the code departs from the specification *)

(** C1: ana, in the room "*", sends "hi". The direct broadcast queues the
    envelope "m1" once for ana and for ben, and the envelope is published
    on "room:*", the channel the subscriber loop of the same process
    listens on. When the loop receives that payload, it broadcasts it
    again: both queues hold the envelope twice. Nothing compares message
    ids. *)
Lemma chat_echo_is_broadcast_twice :
  let d := Example.encoded Example.hi_star_m1 in
  let sent :=
    handleChatMessage Example.env_ok Example.ana Example.hi Example.star_room in
  let echoed := sent ≫= listenRedisMessages_iter (RecvMessage d) in
  hub_wf Example.star_room /\
  sent ≫= queue 5 = Some [d] /\
  sent ≫= queue 6 = Some [d] /\
  published <$> sent = Some [(listenRedisMessages_channel, d)] /\
  echoed ≫= queue 5 = Some [d; d] /\
  echoed ≫= queue 6 = Some [d; d].
Proof.
  split; [apply hub_wfb_sound; by_compute|].
  repeat (split; [by_compute|]). by_compute.
Qed.

(** C3: bob's read pump handles a chat frame while alice's queue is full.
    The action runs on bob's read-pump goroutine, not on the goroutine of
    [Hub.Run], and it deletes alice's entry from [hub.Connections]. *)
Lemma broadcastToRoom_deletes_outside_Hub_Run :
  let a := Pump_reads Example.env_ok Example.bob (ReadFrame (Example.encoded Example.hi)) in
  runs_on a = go_readPump Example.bob /\ runs_on a <> go_hub_Run /\
  hub_wf Example.alice_saturated /\
  Connections Example.alice_saturated !! "c-alice" = Some Example.alice /\
  (fun s' => Connections s' !! "c-alice") <$> step a Example.alice_saturated
    = Some None.
Proof.
  split; [reflexivity|]. split; [discriminate|].
  split; [exact alice_saturated_wf|]. split; by_compute.
Qed.

(** C6: the envelope "m1" that [handleChatMessage] published reaches a
    [StreamMessages] call for room "R1" whose [uuid.New()] gives "u2": the
    message sent on the stream has id "u2". *)
Lemma StreamMessages_sends_a_new_id :
  WSMessage.MessageID Example.hi_m1 = "m1" /\
  published <$> handleChatMessage Example.env_ok Example.alice Example.hi Example.joined
    = Some [("room:R1", Example.encoded Example.hi_m1)] /\
  pb.Id <$> (StreamMessages_iter Example.env_u2 "R1"
               (RecvMessage (Example.encoded Example.hi_m1)) false Example.joined).1.1
    = Some "u2".
Proof. split; [reflexivity|]. split; by_compute. Qed.

(** ** Where the specification has to be amended *)

(** C2 as stated fails: the insert fails, bob is in alice's room, and
    after [handleChatMessage] bob's queue is empty and nothing has been
    published. *)
Lemma persistence_failure_counterexample :
  db_err Example.env_db_down = Some "connection refused" /\
  Connections Example.joined !! "c-bob" = Some Example.bob /\
  Connection.RoomID Example.bob = Connection.RoomID Example.alice /\
  handleChatMessage Example.env_db_down Example.alice Example.hi Example.joined
    ≫= queue 2 = Some [] /\
  published <$>
    handleChatMessage Example.env_db_down Example.alice Example.hi Example.joined
    = Some [].
Proof.
  split; [reflexivity|]. split; [by_compute|]. split; [reflexivity|].
  split; by_compute.
Qed.

(** C4 as stated fails: alice is registered in room "R1" with a full
    queue; the broadcast to "R1" returns and her queue does not hold the
    envelope. *)
Lemma broadcast_skips_full_queue_counterexample :
  hub_wf Example.alice_saturated /\
  Connections Example.alice_saturated !! "c-alice" = Some Example.alice /\
  Connection.RoomID Example.alice = "R1" /\
  broadcastToRoom "R1" Example.hi_m1 Example.alice_saturated ≫= queue 1
    = Some (replicate 256 (Example.encoded Example.stale)) /\
  Example.encoded Example.hi_m1 ∉ replicate 256 (Example.encoded Example.stale).
Proof.
  split; [exact alice_saturated_wf|]. split; [by_compute|]. split; [reflexivity|].
  split; [by_compute|].
  intros Hin. apply elem_of_replicate in Hin as [Heq _]. discriminate Heq.
Qed.

(** C7 as stated fails: where the specification answers [RegistryClosed],
    the code files the connection. *)
Lemma Register_after_shutdown_counterexample :
  spec_Register true Example.alice NewHub = RegistryClosed /\
  code_Register Example.alice NewHub <> Some (spec_Register true Example.alice NewHub) /\
  (fun s' => Connections s' !! "c-alice") <$> Run_step (Register Example.alice) NewHub
    = Some (Some Example.alice).
Proof. split; [reflexivity|]. split; [discriminate|]. by_compute. Qed.

(** C8 as stated fails: the RPC succeeds for room "R1", and the queues of
    alice and bob, the members of "R1", are still empty. *)
Lemma SendMessage_no_local_broadcast_counterexample :
  let '(resp, st, s') := SendMessage Example.env_ok Example.rpc_hello Example.joined in
  pb.Success resp = true /\ st = None /\
  Connection.RoomID Example.alice = pb.RoomId Example.rpc_hello /\
  Connection.RoomID Example.bob = pb.RoomId Example.rpc_hello /\
  queue 1 s' = Some [] /\ queue 2 s' = Some [].
Proof. by_compute. Qed.

(** C9 as stated fails: frames of kind "system" and "heartbeat" are not
    accepted kinds, and neither is the literal kind "chat" (the chat path
    is selected by "message"): each is logged as unknown. The envelope
    broadcast after a join frame has kind "join", not "system". *)
Lemma system_kind_is_unknown_counterexample :
  readPump_iter Example.env_ok Example.alice
    (ReadFrame (Example.encoded Example.system_frame)) Example.joined
  = Some (Continue, log_Printf "Unknown message type: system" Example.joined) /\
  readPump_iter Example.env_ok Example.alice
    (ReadFrame (Example.encoded (WSMessage.mk "heartbeat" "" "" "" "" "" 0 ∅)))
    Example.joined
  = Some (Continue, log_Printf "Unknown message type: heartbeat" Example.joined) /\
  readPump_iter Example.env_ok Example.alice
    (ReadFrame (Example.encoded (WSMessage.mk "chat" "" "" "" "hi" "" 0 ∅)))
    Example.joined
  = Some (Continue, log_Printf "Unknown message type: chat" Example.joined) /\
  (readPump_iter Example.env_ok Example.alice
     (ReadFrame (Example.encoded (WSMessage.mk "join" "" "" "" "" "" 0 ∅)))
     Example.joined
   ≫= fun r => queue 2 r.2)
  = Some [Example.encoded
            (WSMessage.mk "join" "u1" "alice" "R1" "alice joined the room"
               "m1" 100 ∅)].
Proof. split; [|split; [|split]]; by_compute. Qed.

(** ** Witnesses of the further properties *)

Lemma two_queued_wf : hub_wf Scenario.two_queued.
Proof. apply hub_wfb_sound. by_compute. Qed.

Lemma two_queued_facts :
  Connections Scenario.two_queued !! "c-alice" = Some Example.alice /\
  heap Scenario.two_queued !! Connection.Send Example.alice
    = Some (mkChan Send_capacity
              [Example.encoded Example.stale; Example.encoded Example.hi_m1] false) /\
  heap Scenario.two_queued_closed !! Connection.Send Example.alice
    = Some (mkChan Send_capacity
              [Example.encoded Example.stale; Example.encoded Example.hi_m1] true).
Proof. split; [|split]; by_compute. Qed.

(** [Unregister_closes_once] on alice with two envelopes queued. *)
Lemma Unregister_closes_once_witness :
  hub_wf Scenario.two_queued /\
  Connections Scenario.two_queued !! "c-alice" = Some Example.alice /\
  exists s',
    Run_step (Unregister Example.alice) Scenario.two_queued = Some s' /\
    Connections s' = delete "c-alice" (Connections Scenario.two_queued) /\
    hub_wf s' /\
    Run_step (Unregister Example.alice) s' = Some s'.
Proof.
  destruct two_queued_facts as (Ek & _).
  split; [exact two_queued_wf|]. split; [exact Ek|].
  destruct (Unregister_closes_once Scenario.two_queued "c-alice" Example.alice
              two_queued_wf Ek)
    as (ch & s' & _ & Hr & Hc & _ & _ & _ & _ & Hwf & Hagain).
  exists s'. split; [exact Hr|]. split; [exact Hc|]. split; [exact Hwf|exact Hagain].
Defined.

Lemma alice_is_full :
  ~ length (buf (mkChan Send_capacity (replicate 256 (Example.encoded Example.stale)) false))
    < cap (mkChan Send_capacity (replicate 256 (Example.encoded Example.stale)) false).
Proof. by_compute. Qed.

(** [Unregister_after_drop_is_noop] on alice's saturated queue. *)
Lemma Unregister_after_drop_is_noop_witness :
  hub_wf Example.alice_saturated /\
  Connections Example.alice_saturated !! "c-alice" = Some Example.alice /\
  exists s',
    broadcastToRoom "R1" Example.hi_m1 Example.alice_saturated = Some s' /\
    Run_step (Unregister Example.alice) s' = Some s'.
Proof.
  destruct alice_saturated_facts as (Ek & Eh & _).
  split; [exact alice_saturated_wf|]. split; [exact Ek|].
  destruct (Unregister_after_drop_is_noop "R1" Example.hi_m1
              (Example.encoded Example.hi_m1) Example.alice_saturated "c-alice"
              Example.alice _ alice_saturated_wf eq_refl Ek eq_refl Eh alice_is_full)
    as (s' & Hb & _ & Hu).
  exists s'. split; [exact Hb|exact Hu].
Defined.

(** [Hub_Broadcast_reaches_every_room] on the three connections: carol of
    room "R2" gets the message as well. *)
Lemma Hub_Broadcast_reaches_every_room_witness :
  hub_wf Example.joined /\
  exists s',
    Run_step (Broadcast (Example.encoded Example.hi_m1)) Example.joined = Some s' /\
    queue 1 s' = Some [Example.encoded Example.hi_m1] /\
    queue 3 s' = Some [Example.encoded Example.hi_m1].
Proof.
  split; [exact joined_wf|].
  destruct (Hub_Broadcast_reaches_every_room (Example.encoded Example.hi_m1)
              Example.joined joined_wf) as (s' & Hb & _ & Heff).
  destruct joined_entries as (Ea & _ & Ec).
  destruct joined_channels as (Ca & _ & Cc).
  destruct (Heff _ _ _ Ea Ca) as [Ha _].
  destruct (Heff _ _ _ Ec Cc) as [Hc _].
  destruct (Ha make_chan_has_room) as [Ha' _].
  destruct (Hc make_chan_has_room) as [Hc' _].
  exists s'. split; [exact Hb|].
  split; [exact (queue_of_heap _ _ _ Ha')|exact (queue_of_heap _ _ _ Hc')].
Defined.

(** [run_keeps_hub_wf] on alice's arrival: her registration, then a
    typing frame. *)
Lemma run_keeps_hub_wf_witness :
  let s := (NewConnection "c-alice" "u1" "alice" "R1" 1 NewHub).2 in
  let actions :=
    [Hub_receives (Register Example.alice);
     Pump_reads Example.env_m0 Example.alice
       (ReadFrame (Example.encoded Example.typing_start))] in
  hub_wf s /\ disciplined_run actions s /\
  exists s', run actions s = Some s' /\ hub_wf s'.
Proof.
  intros s actions.
  assert (Hwf : hub_wf s) by (apply hub_wfb_sound; by_compute).
  assert (Hd : disciplined_run actions s).
  { split; [|by_compute]. split.
    - eexists. split; by_compute.
    - intros k c Hk. simpl in Hk. by rewrite lookup_empty in Hk. }
  assert (Hrun : exists s', run actions s = Some s') by (eexists; by_compute).
  destruct Hrun as (s' & Hrun).
  split; [exact Hwf|]. split; [exact Hd|]. exists s'. split; [exact Hrun|].
  exact (run_keeps_hub_wf actions s s' Hwf Hd Hrun).
Defined.

(** [broadcasts_queue_in_order] on two envelopes sent to alice's room. *)
Lemma broadcasts_queue_in_order_witness :
  hub_wf Example.joined /\
  exists s',
    run_ops [Op_broadcastToRoom "R1" Example.stale;
             Op_broadcastToRoom "R1" Example.hi_m1] Example.joined = Some s' /\
    queue 1 s' = Some [Example.encoded Example.stale; Example.encoded Example.hi_m1].
Proof.
  split; [exact joined_wf|].
  destruct joined_entries as (Ea & _). destruct joined_channels as (Ca & _).
  destruct (broadcasts_queue_in_order [Example.stale; Example.hi_m1]
              [Example.encoded Example.stale; Example.encoded Example.hi_m1]
              Example.joined "c-alice" Example.alice _ joined_wf Ea Ca)
    as (s' & Hrun & Hh & _).
  - repeat constructor.
  - by_compute.
  - exists s'. split; [exact Hrun|]. exact (queue_of_heap _ _ _ Hh).
Defined.

(** [writePump_writes_the_queue_in_order] on alice's two envelopes, before
    and after her channel is closed. *)
Lemma writePump_writes_the_queue_in_order_witness :
  writePump [Send_ready false false; Send_ready false false]
    Example.alice Scenario.two_queued
  = Some ([TextMessage (Example.encoded Example.stale);
           TextMessage (Example.encoded Example.hi_m1)], false,
          set_heap (<[1 := make_chan Send_capacity]> (heap Scenario.two_queued))
            Scenario.two_queued) /\
  exists s',
    writePump [Send_ready false false; Send_ready false false; Send_ready false false]
      Example.alice Scenario.two_queued_closed
    = Some ([TextMessage (Example.encoded Example.stale);
             TextMessage (Example.encoded Example.hi_m1); CloseMessage], true, s').
Proof.
  destruct two_queued_facts as (_ & Eh & Ec).
  destruct (writePump_writes_the_queue_in_order Example.alice Scenario.two_queued _ Eh)
    as (Hopen & _).
  destruct (writePump_writes_the_queue_in_order Example.alice
              Scenario.two_queued_closed _ Ec) as (_ & Hclosed & _).
  split; [exact Hopen|]. eexists. exact (Hclosed eq_refl).
Defined.

(** [dropped_member_gets_backlog_then_close] on alice's saturated queue. *)
Lemma dropped_member_gets_backlog_then_close_witness :
  hub_wf Example.alice_saturated /\
  exists s' s'',
    broadcastToRoom "R1" Example.hi_m1 Example.alice_saturated = Some s' /\
    writePump (replicate 257 (Send_ready false false)) Example.alice s'
      = Some ((TextMessage <$> replicate 256 (Example.encoded Example.stale))
                ++ [CloseMessage], true, s'')%list.
Proof.
  destruct alice_saturated_facts as (Ek & Eh & El).
  split; [exact alice_saturated_wf|].
  destruct (dropped_member_gets_backlog_then_close "R1" Example.hi_m1
              (Example.encoded Example.hi_m1) Example.alice_saturated "c-alice"
              Example.alice _ alice_saturated_wf eq_refl Ek eq_refl Eh alice_is_full)
    as (s' & s'' & Hb & Hw).
  exists s', s''. split; [exact Hb|]. exact Hw.
Defined.


(** [handleChatMessage_stored] on alice's "hi": the row, the envelope in
    bob's queue and on the channel of the room. *)
Lemma handleChatMessage_stored_witness :
  hub_wf Example.joined /\ db_err Example.env_ok = None /\
  redis_err Example.env_ok = None /\
  exists s',
    handleChatMessage Example.env_ok Example.alice Example.hi Example.joined = Some s' /\
    queue 2 s' = Some [Example.encoded Example.hi_m1] /\
    published s' = [("room:R1", Example.encoded Example.hi_m1)] /\
    db s' = [INSERT_INTO_messages "m1" "u1" "alice" "R1" "hi" "text" 100 ∅].
Proof.
  split; [exact joined_wf|]. split; [reflexivity|]. split; [reflexivity|].
  destruct (handleChatMessage_stored Example.env_ok Example.alice Example.hi
              (Example.encoded Example.hi_m1) Example.joined joined_wf
              eq_refl eq_refl eq_refl)
    as (s' & Hh & _ & Hf & Hp & Hd).
  destruct joined_entries as (_ & Eb & _). destruct joined_channels as (_ & Cb & _).
  exists s'. split; [exact Hh|].
  split; [exact (room_fanout_queue _ _ _ _ _ _ _ Hf Eb Cb eq_refl make_chan_has_room)|].
  split; [exact Hp|exact Hd].
Defined.

(** [handleChatMessage_survives_Redis_failure] on alice's "hi" while Redis
    resets the connection. *)
Lemma handleChatMessage_survives_Redis_failure_witness :
  hub_wf Example.joined /\ db_err Scenario.env_redis_down = None /\
  redis_err Scenario.env_redis_down = Some "connection reset" /\
  exists s',
    handleChatMessage Scenario.env_redis_down Example.alice Example.hi Example.joined
      = Some s' /\
    queue 2 s' = Some [Example.encoded Example.hi_m1] /\
    published s' = [] /\
    db s' = [INSERT_INTO_messages "m1" "u1" "alice" "R1" "hi" "text" 100 ∅] /\
    log s' = ["Error publishing to Redis: connection reset"].
Proof.
  split; [exact joined_wf|]. split; [reflexivity|]. split; [reflexivity|].
  destruct (handleChatMessage_survives_Redis_failure Scenario.env_redis_down
              Example.alice Example.hi (Example.encoded Example.hi_m1)
              "connection reset" Example.joined joined_wf eq_refl eq_refl eq_refl)
    as (s' & Hh & _ & Hf & Hp & Hd & Hl).
  destruct joined_entries as (_ & Eb & _). destruct joined_channels as (_ & Cb & _).
  exists s'. split; [exact Hh|].
  split; [exact (room_fanout_queue _ _ _ _ _ _ _ Hf Eb Cb eq_refl make_chan_has_room)|].
  split; [exact Hp|]. split; [exact Hd|exact Hl].
Defined.

(** [handleJoinRoom_effects]: alice's join frame when the INSERT fails, and
    when only the status update fails. *)
Lemma handleJoinRoom_effects_witness :
  handleJoinRoom Example.env_db_down Example.alice Scenario.join_frame Example.joined
    = Some (log_Printf "Error joining room: connection refused" Example.joined) /\
  hub_wf Example.joined /\ db_err Scenario.env_update_fails = None /\
  exists s',
    handleJoinRoom Scenario.env_update_fails Example.alice Scenario.join_frame
      Example.joined = Some s' /\
    db s' = [INSERT_INTO_room_members "R1" "u1"] /\
    published s' = [] /\
    queue 2 s' = Some [Example.encoded Scenario.alice_joined].
Proof.
  split.
  { exact (proj1 (handleJoinRoom_effects Example.env_db_down Example.alice
                    Scenario.join_frame Example.joined)
             "connection refused" eq_refl). }
  split; [exact joined_wf|]. split; [reflexivity|].
  destruct (proj2 (handleJoinRoom_effects Scenario.env_update_fails Example.alice
                     Scenario.join_frame Example.joined)
              (Example.encoded Scenario.alice_joined) joined_wf eq_refl eq_refl)
    as (s' & Hh & _ & Hp & Hd & Hf).
  destruct joined_entries as (_ & Eb & _). destruct joined_channels as (_ & Cb & _).
  exists s'. split; [exact Hh|]. split; [exact Hd|]. split; [exact Hp|].
  exact (room_fanout_queue _ _ _ _ _ _ _ Hf Eb Cb eq_refl make_chan_has_room).
Defined.

(** [handleLeaveRoom_broadcasts_anyway] on alice's leave frame while the
    database refuses the DELETE. *)
Lemma handleLeaveRoom_broadcasts_anyway_witness :
  hub_wf Example.joined /\
  exists s',
    handleLeaveRoom Example.env_db_down Example.alice Scenario.join_frame
      Example.joined = Some s' /\
    queue 2 s' = Some [Example.encoded Scenario.alice_left] /\
    published s' = [] /\ db s' = [].
Proof.
  split; [exact joined_wf|].
  destruct (handleLeaveRoom_broadcasts_anyway Example.env_db_down Example.alice
              Scenario.join_frame (Example.encoded Scenario.alice_left)
              Example.joined joined_wf eq_refl)
    as (s' & Hh & _ & Hf & Hp & Hd).
  destruct joined_entries as (_ & Eb & _). destruct joined_channels as (_ & Cb & _).
  exists s'. split; [exact Hh|].
  split; [exact (room_fanout_queue _ _ _ _ _ _ _ Hf Eb Cb eq_refl make_chan_has_room)|].
  split; [exact Hp|exact Hd].
Defined.

(** [frames_stay_in_their_room]: alice's "hi" leaves carol of room "R2"
    alone. *)
Lemma frames_stay_in_their_room_witness :
  hub_wf Example.joined /\
  Connection.RoomID Example.carol <> Connection.RoomID Example.alice /\
  exists s',
    readPump_iter Example.env_ok Example.alice
      (ReadFrame (Example.encoded Example.hi)) Example.joined = Some (Continue, s') /\
    queue 3 s' = Some [] /\
    Connections s' !! "c-carol" = Some Example.carol.
Proof.
  assert (Hrooms : Connection.RoomID Example.carol <> Connection.RoomID Example.alice)
    by discriminate.
  split; [exact joined_wf|]. split; [exact Hrooms|].
  assert (Hr : exists s',
    readPump_iter Example.env_ok Example.alice
      (ReadFrame (Example.encoded Example.hi)) Example.joined = Some (Continue, s'))
    by (eexists; by_compute).
  destruct Hr as (s' & Hr).
  destruct joined_entries as (_ & _ & Ec). destruct joined_channels as (_ & _ & Cc).
  destruct (frames_stay_in_their_room Example.env_ok Example.alice _ Example.joined
              Continue s' "c-carol" Example.carol _ joined_wf Hr Ec Hrooms Cc)
    as [Hq Hk].
  exists s'. split; [exact Hr|]. split; [exact (queue_of_heap _ _ _ Hq)|exact Hk].
Defined.

(** [notifications_are_local_only] on alice's typing frame. *)
Lemma notifications_are_local_only_witness :
  json_Unmarshal_WSMessage (Example.encoded Example.typing_start)
    = Some Example.typing_start /\
  WSMessage.Type_ Example.typing_start <> "message" /\
  exists s',
    readPump_iter Example.env_m0 Example.alice
      (ReadFrame (Example.encoded Example.typing_start)) Example.joined
      = Some (Continue, s') /\
    published s' = [].
Proof.
  assert (Hkind : WSMessage.Type_ Example.typing_start <> "message") by discriminate.
  split; [reflexivity|]. split; [exact Hkind|].
  assert (Hr : exists s',
    readPump_iter Example.env_m0 Example.alice
      (ReadFrame (Example.encoded Example.typing_start)) Example.joined
      = Some (Continue, s'))
    by (eexists; by_compute).
  destruct Hr as (s' & Hr). exists s'. split; [exact Hr|].
  exact (notifications_are_local_only Example.env_m0 Example.alice
           (Example.encoded Example.typing_start) Example.typing_start
           Example.joined Continue s' eq_refl Hkind Hr).
Defined.

Lemma stream_run_runs_on : Forall stream_runs_on Scenario.stream_run.
Proof. repeat constructor. Qed.

(** [StreamMessages_relays_every_payload] on a payload, a receive error
    and a second payload. *)
Lemma StreamMessages_relays_every_payload_witness :
  Forall stream_runs_on Scenario.stream_run /\
  exists s',
    StreamMessages Example.env_m0 "R1" false Scenario.stream_run Example.joined
      = ([StreamMessages_initial Example.env_m0 "R1";
          stream_message Example.env_ok "R1" (Example.encoded Example.hi_m1);
          stream_message Scenario.env_later "R1" (Example.encoded Example.stale)],
         None, s') /\
    heap s' = heap Example.joined /\ published s' = published Example.joined.
Proof.
  split; [exact stream_run_runs_on|].
  destruct (StreamMessages_relays_every_payload Example.env_m0 "R1"
              Scenario.stream_run Example.joined stream_run_runs_on)
    as (s' & Hs & _ & Hh & Hp & _).
  exists s'. split; [exact Hs|]. split; [exact Hh|exact Hp].
Defined.

(** [StreamMessages_ends_on_cancel_or_send_failure]: the context is done
    after a payload and a receive error; the payload that follows is not
    relayed. *)
Lemma StreamMessages_ends_on_cancel_or_send_failure_witness :
  exists s',
    StreamMessages Example.env_m0 "R1" false
      [Default_case Example.env_ok (RecvMessage (Example.encoded Example.hi_m1)) false;
       Default_case Example.env_u2 (RecvError "timeout") false;
       Ctx_Done;
       Default_case Scenario.env_later (RecvMessage (Example.encoded Example.stale)) false]
      Example.joined
    = ([StreamMessages_initial Example.env_m0 "R1";
        stream_message Example.env_ok "R1" (Example.encoded Example.hi_m1)],
       Some Canceled, s').
Proof.
  destruct (StreamMessages_ends_on_cancel_or_send_failure Example.env_m0 "R1"
              [Default_case Example.env_ok
                 (RecvMessage (Example.encoded Example.hi_m1)) false;
               Default_case Example.env_u2 (RecvError "timeout") false]
              Ctx_Done
              [Default_case Scenario.env_later
                 (RecvMessage (Example.encoded Example.stale)) false]
              Example.joined)
    as (s' & Hs).
  - repeat constructor.
  - left. reflexivity.
  - exists s'. exact Hs.
Defined.

Lemma dave_is_new : heap Example.joined !! 7 = None.
Proof. by_compute. Qed.

(** [accepted_socket_joins_the_registry] when dave opens a socket for room
    "R2" next to the three connections. *)
Lemma accepted_socket_joins_the_registry_witness :
  hub_wf Example.joined /\ heap Example.joined !! 7 = None /\
  exists welcome s' s'',
    HandleWebSocket_request Scenario.env_dave "u6" "dave" "R2" None 7 Example.joined
      = (Accepted Scenario.dave (Register Scenario.dave) welcome, s') /\
    WSMessage.Type_ welcome = "system" /\
    Run_step (Register Scenario.dave) s' = Some s'' /\ hub_wf s'' /\
    Connections s'' !! "c-dave" = Some Scenario.dave /\
    heap s'' !! 7 = Some (make_chan Send_capacity).
Proof.
  split; [exact joined_wf|]. split; [exact dave_is_new|].
  assert (Hreq : exists welcome s',
    HandleWebSocket_request Scenario.env_dave "u6" "dave" "R2" None 7 Example.joined
      = (Accepted Scenario.dave (Register Scenario.dave) welcome, s'))
    by (eexists _, _; by_compute).
  destruct Hreq as (welcome & s' & Hreq).
  destruct (accepted_socket_joins_the_registry Scenario.env_dave "u6" "dave" "R2"
              None 7 Example.joined Scenario.dave (Register Scenario.dave) welcome s'
              Hreq)
    as (_ & _ & _ & _ & _ & _ & Hkind & _ & Hwf).
  destruct (Hwf joined_wf dave_is_new) as (_ & _ & s'' & Hrun & Hwf'' & Hk & Hh).
  exists welcome, s', s''. split; [exact Hreq|]. split; [exact Hkind|].
  split; [exact Hrun|]. split; [exact Hwf''|]. split; [exact Hk|exact Hh].
Defined.

(** [JoinRoom_then_LeaveRoom] when alice's user joins and leaves room "R1"
    while bob is online there. *)
Lemma JoinRoom_then_LeaveRoom_witness :
  db_err Example.env_ok = None /\ db_err2 Example.env_ok = None /\
  redis_err Example.env_ok = None /\ db_err Scenario.env_later = None /\
  redis_err Scenario.env_later = None /\
  let '(r1, st1, s1, sets1) :=
    JoinRoom Example.env_ok "R1" "u1" Example.joined Scenario.bob_online in
  let '(r2, st2, s2, sets2) := LeaveRoom Scenario.env_later "R1" "u1" s1 sets1 in
  room_Success r1 = true /\ st1 = None /\ room_Success r2 = true /\ st2 = None /\
  "u1" ∈ SMembers "room:R1:users" sets1 /\
  SMembers "room:R1:users" sets2
    = SMembers "room:R1:users" Scenario.bob_online ∖ {["u1"]} /\
  (forall key, key <> "room:R1:users" ->
     SMembers key sets2 = SMembers key Scenario.bob_online) /\
  db s2 = [INSERT_INTO_room_members "R1" "u1"; UPDATE_users_online "u1";
           DELETE_FROM_room_members "R1" "u1"].
Proof.
  do 5 (split; [reflexivity|]).
  exact (JoinRoom_then_LeaveRoom Example.env_ok Scenario.env_later "R1" "u1"
           Example.joined Scenario.bob_online eq_refl eq_refl eq_refl eq_refl eq_refl).
Defined.

Lemma bob_is_online : "u2" ∈ SMembers (room_users_key "R1") Scenario.bob_online.
Proof. by_compute. Qed.

(** [GetOnlineUsers_follows_the_online_set]: no query for a room nobody is
    online in; after alice's user has joined bob's room the query asks for
    both ids. *)
Lemma GetOnlineUsers_follows_the_online_set_witness :
  redis_err Scenario.env_later = None /\
  GetOnlineUsers Scenario.env_later "R1" ∅ Scenario.no_users Example.joined
    = (None, inl [], Example.joined) /\
  exists ids,
    (GetOnlineUsers Scenario.env_later "R1"
       (JoinRoom Example.env_ok "R1" "u1" Example.joined Scenario.bob_online).2
       Scenario.no_users Example.joined).1.1
      = Some (SELECT_users_by_id ids) /\
    "u1" ∈ ids /\ "u2" ∈ ids.
Proof.
  split; [reflexivity|]. split.
  - exact (proj1 (GetOnlineUsers_follows_the_online_set Example.env_ok
                    Scenario.env_later "R1" "u1" Scenario.no_users Example.joined ∅
                    eq_refl) eq_refl).
  - destruct (proj1 (proj2 (GetOnlineUsers_follows_the_online_set Example.env_ok
                    Scenario.env_later "R1" "u1" Scenario.no_users Example.joined
                    Scenario.bob_online eq_refl)) eq_refl eq_refl)
      as (ids & Hq & Hu & Hsub).
    exists ids. split; [exact Hq|]. split; [exact Hu|].
    exact (Hsub "u2" bob_is_online).
Defined.

(** [GetMessages_limit_is_clamped] on [limit=500]: the query asks for 50
    rows. *)
Lemma GetMessages_limit_is_clamped_witness :
  (GetMessages Scenario.Atoi Scenario.Atoi "R1" "500" "" Scenario.db_up).1
    = Some (SELECT_messages "R1" None 50) /\
  exists before limit,
    SELECT_messages "R1" None 50 = SELECT_messages "R1" before limit /\
    (1 <= limit <= 100)%Z.
Proof.
  split; [reflexivity|].
  destruct (GetMessages_limit_is_clamped Scenario.Atoi Scenario.Atoi "R1" "500" ""
              Scenario.db_up (SELECT_messages "R1" None 50) eq_refl)
    as (before & limit & Hq & Hl & _).
  exists before, limit. split; [exact Hq|exact Hl].
Defined.

(** [GetMessages_before_loses_the_query_error]: with [before=150], a
    database that is down makes the handler panic, and a [limit] that is
    not a number gives 500 although the query succeeds. *)
Lemma GetMessages_before_loses_the_query_error_witness :
  "150" <> "" /\
  (GetMessages Scenario.Atoi Scenario.Atoi "R1" "20" "150" Scenario.db_down).2
    = Handler_panics /\
  (GetMessages Scenario.Atoi Scenario.Atoi "R1" "abc" "150" Scenario.db_up).2
    = Failed 500 "Failed to get messages".
Proof.
  assert (Hne : "150" <> "") by discriminate.
  split; [exact Hne|]. split.
  - exact (proj2 (proj2 (GetMessages_before_loses_the_query_error Scenario.Atoi
                           Scenario.Atoi "R1" "20" "150" Scenario.db_down Hne)
                    20%Z eq_refl) 150%Z eq_refl eq_refl).
  - exact (proj1 (GetMessages_before_loses_the_query_error Scenario.Atoi
                    Scenario.Atoi "R1" "abc" "150" Scenario.db_up Hne) eq_refl).
Defined.

(** [GetMessages_lists_the_rows_that_scan] on three rows, one of which does
    not scan, with [limit=2]. *)
Lemma GetMessages_lists_the_rows_that_scan_witness :
  Scenario.db_up (SELECT_messages "R1" None 2) = QueryRows Scenario.rows /\
  exists messages has_more,
    (GetMessages Scenario.Atoi Scenario.Atoi "R1" "2" "" Scenario.db_up).2
      = Messages 200 messages has_more /\
    Message.ID <$> messages = ["m7"; "m5"] /\
    Message.Content <$> messages = ["third"; "first"] /\
    length messages <= 3 /\
    (has_more = true <-> Z.of_nat (length messages) = 2%Z).
Proof.
  split; [reflexivity|].
  destruct (proj2 (GetMessages_lists_the_rows_that_scan Scenario.Atoi Scenario.Atoi
                     "R1" "2" Scenario.db_up) Scenario.rows eq_refl)
    as (messages & has_more & Ha & Hid & Hc & Hlen & _ & Hmore).
  exists messages, has_more. split; [exact Ha|]. split; [exact Hid|].
  split; [exact Hc|]. split; [exact Hlen|exact Hmore].
Defined.

(** [Bearer_prefix_is_optional] on the one valid token. *)
Lemma Bearer_prefix_is_optional_witness :
  "header.payload.signature" <> "" /\
  strip_Bearer "Bearer header.payload.signature" = "header.payload.signature" /\
  AuthMiddleware Scenario.jwt_Parse "Bearer header.payload.signature"
    = AuthMiddleware Scenario.jwt_Parse "header.payload.signature".
Proof.
  assert (Hne : "header.payload.signature" <> "") by discriminate.
  split; [exact Hne|].
  destruct (Bearer_prefix_is_optional Scenario.jwt_Parse "header.payload.signature" Hne)
    as [Hstrip Hsame].
  split; [exact Hstrip|]. exact (Hsame eq_refl).
Defined.

Lemma valid_token_claims :
  Scenario.jwt_Parse (strip_Bearer "Bearer header.payload.signature")
    = Some Scenario.claims /\
  Scenario.claims !! "user_id" = Some (claim_string "u1") /\
  Scenario.claims !! "username" = Some (claim_string "alice").
Proof. split; [|split]; by_compute. Qed.

(** [AuthMiddleware_accepts_exactly_valid_tokens] on the one valid token
    and on a forged one. *)
Lemma AuthMiddleware_accepts_exactly_valid_tokens_witness :
  AuthMiddleware Scenario.jwt_Parse "Bearer header.payload.signature"
    = Next "u1" "alice" /\
  forall status error,
    AuthMiddleware Scenario.jwt_Parse "Bearer forged" = Abort status error ->
    status = 401.
Proof.
  split.
  - apply (proj1 (AuthMiddleware_accepts_exactly_valid_tokens Scenario.jwt_Parse
                    "Bearer header.payload.signature") "u1" "alice").
    split; [discriminate|]. exists Scenario.claims. exact valid_token_claims.
  - exact (proj2 (AuthMiddleware_accepts_exactly_valid_tokens Scenario.jwt_Parse
                    "Bearer forged")).
Defined.

(** [history_RPC_and_HTTP_agree] on the three rows with a limit of 2. *)
Lemma history_RPC_and_HTTP_agree_witness :
  Scenario.Atoi "2" = Some 2%Z /\ (1 <= 2 <= 100)%Z /\
  let '(q, rpc) := GetMessageHistory "R1" 2 0 Scenario.db_up in
  let '(q', http) :=
    GetMessages Scenario.Atoi Scenario.Atoi "R1" "2" "" Scenario.db_up in
  q' = Some q /\
  match rpc, http with
  | inl (messages, HasMore), Messages 200 messages' has_more =>
      pb.Id <$> messages = Message.ID <$> messages' /\
      pb.UserId <$> messages = Message.UserID <$> messages' /\
      pb.Content <$> messages = Message.Content <$> messages' /\
      pb.Timestamp <$> messages = Message.Timestamp <$> messages' /\
      HasMore = has_more
  | inr (Internal _), Failed 500 _ => True
  | _, _ => False
  end.
Proof.
  assert (Hrange : (1 <= 2 <= 100)%Z) by lia.
  split; [reflexivity|]. split; [exact Hrange|].
  exact (history_RPC_and_HTTP_agree Scenario.Atoi Scenario.Atoi "R1" "2" 2%Z
           Scenario.db_up eq_refl Hrange).
Defined.
